(** * HabitsTracker: the calendar state model and its persistence store

    A shallow embedding of [HabitsTracker.py].  The Tk widgets that carry
    the state of the month grid (the habit entries and the day labels) are
    modelled by finite maps, the data directory by a finite map from file
    names to file contents, and Python's exceptions by an outcome type that
    is threaded through a small state monad. *)

From Stdlib Require Import ZArith Bool Lia Ascii String DecimalString.
From stdpp Require Import base gmap strings list fin_maps pretty sorting.

Open Scope string_scope.
Open Scope Z_scope.

(** ** Python values, exceptions and control flow *)

Module Py.

(** The exception classes that the modelled code can meet.  All of them
    derive from [Exception]; [IllegalMonthError] derives from
    [ValueError] (and from [IndexError]). *)
Inductive exn : Set :=
  | OSError
  | UnpicklingError
  | IllegalMonthError
  | ValueError
  | IndexError
  | TclError.

Definition is_Exception (e : exn) : bool := true.

Definition is_ValueError (e : exn) : bool :=
  match e with
  | ValueError | IllegalMonthError => true
  | _ => false
  end.

(** The result of running a piece of code: a value, or a raised exception. *)
Inductive outcome (A : Type) : Type :=
  | Ok (a : A)
  | Raise (e : exn).
Arguments Ok {A} a.
Arguments Raise {A} e.

Definition raised {A} (r : outcome A) : bool :=
  match r with
  | Ok _ => false
  | Raise _ => true
  end.

(** Code that reads and mutates a state [S] and may raise.  The state at
    the point of the raise is kept: Python does not roll anything back. *)
Definition M (S A : Type) : Type := S -> S * outcome A.

Definition ret {S A} (a : A) : M S A := fun s => (s, Ok a).

Definition raise {S A} (e : exn) : M S A := fun s => (s, Raise e).

Definition bind {S A B} (m : M S A) (k : A -> M S B) : M S B :=
  fun s =>
    match m s with
    | (s', Ok a) => k a s'
    | (s', Raise e) => (s', Raise e)
    end.

Definition get {S} : M S S := fun s => (s, Ok s).

Definition modify {S} (f : S -> S) : M S unit := fun s => (f s, Ok tt).

Definition lift {S A} (r : outcome A) : M S A := fun s => (s, r).

(** [try: body  except C as e: handler e] where [catches] decides
    membership in the class [C]. *)
Definition try_except {S A} (body : M S A) (catches : exn -> bool)
    (handler : exn -> M S A) : M S A :=
  fun s =>
    match body s with
    | (s', Ok a) => (s', Ok a)
    | (s', Raise e) => if catches e then handler e s' else (s', Raise e)
    end.

(** [if c: body] with no [else]. *)
Definition when {S} (c : bool) (body : M S unit) : M S unit :=
  if c then body else ret tt.

(** [for x in xs: body x] *)
Fixpoint for_in {S X} (xs : list X) (body : X -> M S unit) : M S unit :=
  match xs with
  | [] => ret tt
  | x :: xs' => bind (body x) (fun _ => for_in xs' body)
  end.

(** [range(lo, hi)] *)
Definition range (lo hi : Z) : list Z := seqZ lo (hi - lo).

(** [len(l)] *)
Definition len {A} (l : list A) : Z := Z.of_nat (length l).

(** Truth value of a list and of a string. *)
Definition truthy_list {A} (l : list A) : bool :=
  match l with
  | [] => false
  | _ :: _ => true
  end.

Definition truthy_str (s : string) : bool :=
  match s with
  | EmptyString => false
  | String _ _ => true
  end.

(** [l[i]]: negative indices count from the end; anything else out of
    range raises [IndexError]. *)
Definition getitem {A} (l : list A) (i : Z) : outcome A :=
  let j := if i <? 0 then i + len l else i in
  if (0 <=? j) && (j <? len l) then
    match l !! Z.to_nat j with
    | Some x => Ok x
    | None => Raise IndexError
    end
  else Raise IndexError.

(** [str(n)] for an integer and [sep.join(parts)]. *)
Definition str (n : Z) : string := pretty n.

Fixpoint join (sep : string) (parts : list string) : string :=
  match parts with
  | [] => ""
  | [p] => p
  | p :: rest => p +:+ sep +:+ join sep rest
  end.

End Py.

Import Py.

Declare Scope py_scope.
Delimit Scope py_scope with py.
Notation "x <- m ;; k" := (bind m (fun x => k))
  (at level 100, m at next level, k at level 200, right associativity, only parsing) : py_scope.
Notation "m ;; k" := (bind m (fun _ => k))
  (at level 100, k at level 200, right associativity, only parsing) : py_scope.
Open Scope py_scope.

(** ** The [calendar] module of the standard library *)

Module calendar.

Definition isleap (year : Z) : bool :=
  (year mod 4 =? 0) && (negb (year mod 100 =? 0) || (year mod 400 =? 0)).

Definition mdays (month : Z) : Z :=
  if month =? 2 then 28
  else if (month =? 4) || (month =? 6) || (month =? 9) || (month =? 11) then 30
  else 31.

(** The second component of [calendar.monthrange(year, month)], the
    number of days of the month; a month outside 1..12 raises
    [IllegalMonthError]. *)
Definition ndays (year month : Z) : Z :=
  mdays month + (if (month =? 2) && isleap year then 1 else 0).

Definition monthrange_days (year month : Z) : outcome Z :=
  if (1 <=? month) && (month <=? 12) then Ok (ndays year month)
  else Raise IllegalMonthError.

End calendar.

(** ** Configuration *)

Module AppConfig.

Definition MAX_HABIT_ROWS : Z := 10.
Definition START_ROW_INDEX : Z := 2.
Definition MAX_DAYS : Z := 31.

(** [YEAR_RANGE = range(2020, 2026)]; [in_YEAR_RANGE y] is [y in YEAR_RANGE]. *)
Definition YEAR_RANGE : list Z := range 2020 2026.
Definition in_YEAR_RANGE (year : Z) : bool := bool_decide (year ∈ YEAR_RANGE).

Definition COLOR_COMPLETED : string := "light green".
Definition COLOR_DEFAULT : string := "white".

Definition STATUS_SAVED (year month : Z) : string :=
  "データを保存しました: " +:+ str year +:+ "年" +:+ str month +:+ "月".
Definition STATUS_SAVE_ERROR : string := "データ保存に失敗しました".
Definition STATUS_EMPTY_DATA : string := "保存データの収集に失敗しました".
Definition STATUS_NO_HABITS : string :=
  "習慣が設定されていません。習慣名を入力してください。".
Definition STATUS_HABITS_LIST (habits : string) : string :=
  "習慣一覧: " +:+ habits.
Definition STATUS_INVALID_DATE : string :=
  "無効な日付です。再度選択してください。".
Definition STATUS_INVALID_INPUT : string :=
  "入力値が無効です。数値を入力してください。".

End AppConfig.

Import AppConfig.

(** ** What the program takes from its platform

    [strip] is [str.strip], [int] is the built-in [int] applied to a
    string ([None] stands for the [ValueError] it raises), and
    [entry_background] is the background Tk gives a fresh [Entry].  The
    development is generic in all three. *)
Record Platform : Type := {
  strip : string -> string;
  int : string -> option Z;
  entry_background : string;
}.

(** The faults the file system may answer with, per file name: [open]
    for writing refused, the write of [pickle.dump] failing after the
    file was opened, and [open] for reading refused. *)
Record IOEnv : Type := {
  open_wb_fails : string -> bool;
  dump_fails : string -> bool;
  open_rb_fails : string -> bool;
}.

(** The content of a file of the data directory: the pickle of a
    snapshot, or bytes that [pickle.load] rejects (among them the empty
    file that [open(..., "wb")] leaves and a partly written pickle).  A
    snapshot is what [save_data] is given: a list of rows of dictionaries
    with string values.  A pickle of any other Python value, which only
    another program can have put there, is not represented. *)
Inductive file : Type :=
  | Pickle (data : list (list (gmap string string)))
  | Garbage.

(** ** The persistence store *)

Module DataManager.

(** [DataManager()]: [os.makedirs("data", exist_ok=True)] raises
    [OSError] when the data directory cannot be created. *)
Definition __init__ (makedirs_fails : bool) : outcome unit :=
  if makedirs_fails then Raise OSError else Ok tt.

Section WithIO.

Variable io : IOEnv.

Definition _get_filename (year month : Z) : string :=
  "data/habits_" +:+ str year +:+ "_" +:+ str month +:+ ".pkl".

Definition os_path_exists (filename : string) : M (gmap string file) bool :=
  fun fs => (fs, Ok (bool_decide (is_Some (fs !! filename)))).

(** [open(filename, "wb")] truncates the file as soon as it succeeds. *)
Definition open_wb (filename : string) : M (gmap string file) unit :=
  fun fs =>
    if open_wb_fails io filename then (fs, Raise OSError)
    else (<[filename := Garbage]> fs, Ok tt).

Definition pickle_dump (data : list (list (gmap string string)))
    (filename : string) : M (gmap string file) unit :=
  fun fs =>
    if dump_fails io filename then (fs, Raise OSError)
    else (<[filename := Pickle data]> fs, Ok tt).

Definition open_rb (filename : string) : M (gmap string file) file :=
  fun fs =>
    if open_rb_fails io filename then (fs, Raise OSError)
    else match fs !! filename with
         | Some f => (fs, Ok f)
         | None => (fs, Raise OSError)
         end.

Definition pickle_load (f : file) : outcome (list (list (gmap string string))) :=
  match f with
  | Pickle data => Ok data
  | Garbage => Raise UnpicklingError
  end.

Definition save_data (year month : Z) (data : list (list (gmap string string)))
    : M (gmap string file) bool :=
  if negb (truthy_list data) then ret false
  else
    let filename := _get_filename year month in
    try_except
      (open_wb filename ;;
       pickle_dump data filename ;;
       ret true)
      is_Exception
      (fun _ => ret false).

Definition load_data (year month : Z)
    : M (gmap string file) (list (list (gmap string string))) :=
  let filename := _get_filename year month in
  found <- os_path_exists filename ;;
  if found then
    r <- try_except
           (f <- open_rb filename ;;
            data <- lift (pickle_load f) ;;
            ret (Some data))
           is_Exception
           (fun _ => ret None) ;;
    match r with
    | Some data => ret data
    | None => ret []
    end
  else ret [].

End WithIO.

End DataManager.

(** ** The calendar application *)

Module CalendarApp.

Import calendar DataManager.

(** A habit [Entry] widget: its text and its background. *)
Record Entry : Type := mkEntry {
  entry_get : string;
  entry_bg : string;
}.

(** The state of a running application.  [habit_entries] maps a grid row
    to the entry of that row; [calendar_frame] maps a grid position
    (row, column) to the background of the day label gridded there (the
    header labels of rows 0 and 1 are never read back and are left out);
    [data_dir] is the data directory; [messagebox] lists the warning
    dialogs shown so far, each with its title and its message. *)
Record App : Type := mkApp {
  current_year : Z;
  current_month : Z;
  initialized : bool;
  year_var : string;
  month_var : string;
  status_text : string;
  habit_entries : gmap Z Entry;
  calendar_frame : gmap (Z * Z) string;
  data_dir : gmap string file;
  messagebox : list (string * string);
}.

Definition set_current (year month : Z) (st : App) : App :=
  mkApp year month (initialized st) (year_var st) (month_var st)
        (status_text st) (habit_entries st) (calendar_frame st) (data_dir st)
        (messagebox st).

Definition set_initialized (b : bool) (st : App) : App :=
  mkApp (current_year st) (current_month st) b (year_var st) (month_var st)
        (status_text st) (habit_entries st) (calendar_frame st) (data_dir st)
        (messagebox st).

Definition set_year_var (s : string) (st : App) : App :=
  mkApp (current_year st) (current_month st) (initialized st) s (month_var st)
        (status_text st) (habit_entries st) (calendar_frame st) (data_dir st)
        (messagebox st).

Definition set_month_var (s : string) (st : App) : App :=
  mkApp (current_year st) (current_month st) (initialized st) (year_var st) s
        (status_text st) (habit_entries st) (calendar_frame st) (data_dir st)
        (messagebox st).

Definition set_status_text (s : string) (st : App) : App :=
  mkApp (current_year st) (current_month st) (initialized st) (year_var st)
        (month_var st) s (habit_entries st) (calendar_frame st) (data_dir st)
        (messagebox st).

Definition set_habit_entries (e : gmap Z Entry) (st : App) : App :=
  mkApp (current_year st) (current_month st) (initialized st) (year_var st)
        (month_var st) (status_text st) e (calendar_frame st) (data_dir st)
        (messagebox st).

Definition set_calendar_frame (g : gmap (Z * Z) string) (st : App) : App :=
  mkApp (current_year st) (current_month st) (initialized st) (year_var st)
        (month_var st) (status_text st) (habit_entries st) g (data_dir st)
        (messagebox st).

Definition set_data_dir (fs : gmap string file) (st : App) : App :=
  mkApp (current_year st) (current_month st) (initialized st) (year_var st)
        (month_var st) (status_text st) (habit_entries st) (calendar_frame st) fs
        (messagebox st).

Definition set_messagebox (dialogs : list (string * string)) (st : App) : App :=
  mkApp (current_year st) (current_month st) (initialized st) (year_var st)
        (month_var st) (status_text st) (habit_entries st) (calendar_frame st)
        (data_dir st) dialogs.

(** Run code of the data manager on the data directory of the application. *)
Definition on_disk {A} (m : M (gmap string file) A) : M App A :=
  fun st =>
    match m (data_dir st) with
    | (fs, r) => (set_data_dir fs st, r)
    end.

(** [widget.config(background=color)] on the day label at [widget], for
    a colour that Tk knows.  For a string that names no colour Tk raises
    [TclError]; that case is not represented, and the properties of
    rendering that depend on it are stated for day labels and snapshots
    with the two colours of the application, [frame_ok] and [disk_ok]
    below. *)
Definition config_background (widget : Z * Z) (color : string) : M App unit :=
  modify (fun st => set_calendar_frame (<[widget := color]> (calendar_frame st)) st).

(** [sorted(d.items())] for a dictionary keyed by row. *)
Definition row_le (a b : Z * Entry) : Prop := a.1 <= b.1.

#[global] Instance row_le_dec : RelDecision row_le.
Proof. intros a b. unfold row_le. apply _. Defined.

Definition sorted_items (d : gmap Z Entry) : list (Z * Entry) :=
  merge_sort row_le (map_to_list d).

(** The two dictionaries that [_collect_current_data] writes. *)
Definition entry_dict (text bg : string) : gmap string string :=
  <["bg" := bg]> {["text" := text]}.
Definition cell_dict (bg : string) : gmap string string :=
  {["bg" := bg]}.

(** The list [row_data] that [_collect_current_data] builds for row [i]. *)
Definition row_data (st : App) (days_in_month i : Z) : list (gmap string string) :=
  let row_index := START_ROW_INDEX + i in
  (match habit_entries st !! row_index with
   | Some entry => entry_dict (entry_get entry) (entry_bg entry)
   | None => entry_dict "" COLOR_DEFAULT
   end)
  :: map (fun j =>
            match calendar_frame st !! (row_index, j) with
            | Some bg => cell_dict bg
            | None => cell_dict COLOR_DEFAULT
            end)
         (range 1 (days_in_month + 1)).

Section WithPlatform.

Variable pf : Platform.
Variable io : IOEnv.

Definition _display_all_habits : M App unit :=
  st <- get ;;
  let habit_texts :=
    omap (fun item : Z * Entry =>
            let habit_text := strip pf (entry_get item.2) in
            if truthy_str habit_text then
              Some (str (item.1 - START_ROW_INDEX + 1) +:+ ": " +:+ habit_text)
            else None)
         (sorted_items (habit_entries st)) in
  if truthy_list habit_texts then
    modify (set_status_text (STATUS_HABITS_LIST (join " | " habit_texts)))
  else
    modify (set_status_text STATUS_NO_HABITS).

Definition _collect_current_data : M App (list (list (gmap string string))) :=
  st <- get ;;
  days_in_month <- lift (monthrange_days (current_year st) (current_month st)) ;;
  ret (map (row_data st days_in_month) (range 0 MAX_HABIT_ROWS)).

Definition _create_habit_entry (row_index : Z)
    (loaded_data : list (list (gmap string string))) : M App unit :=
  let row_offset := row_index - START_ROW_INDEX in
  habit_text <-
    (if truthy_list loaded_data && (0 <=? row_offset) && (row_offset <? len loaded_data) then
       row <- lift (getitem loaded_data row_offset) ;;
       if truthy_list row then
         first <- lift (getitem row 0) ;;
         match first !! "text" with
         | Some text => if truthy_str text then ret text else ret ""
         | None => ret ""
         end
       else ret ""
     else ret "") ;;
  modify (fun st =>
            set_habit_entries
              (<[row_index := mkEntry habit_text (entry_background pf)]> (habit_entries st)) st).

Definition _restore_cell_background (label : Z * Z) (row_index col_index : Z)
    (loaded_data : list (list (gmap string string))) : M App unit :=
  let row_offset := row_index - START_ROW_INDEX in
  if negb (truthy_list loaded_data) || (len loaded_data <=? row_offset) then ret tt
  else
    row <- lift (getitem loaded_data row_offset) ;;
    if truthy_list row && (col_index <? len row) then
      cell_data <- lift (getitem row col_index) ;;
      match cell_data !! "bg" with
      | Some bg => config_background label bg
      | None => ret tt
      end
    else ret tt.

Definition _create_day_cell (row_index col_index : Z)
    (loaded_data : list (list (gmap string string))) : M App unit :=
  config_background (row_index, col_index) COLOR_DEFAULT ;;
  _restore_cell_background (row_index, col_index) row_index col_index loaded_data.

(** Destroys the children of the frame.  The entries are children too;
    the one caller has emptied [habit_entries] just before. *)
Definition _clear_calendar : M App unit :=
  modify (set_calendar_frame ∅).

(** The header labels are not part of the state; what remains of the
    header is the call of [monthrange], which may raise. *)
Definition _render_calendar_header : M App unit :=
  st <- get ;;
  days_in_month <- lift (monthrange_days (current_year st) (current_month st)) ;;
  ret tt.

Definition _render_calendar_body
    (loaded_data : option (list (list (gmap string string)))) : M App unit :=
  st <- get ;;
  days_in_month <- lift (monthrange_days (current_year st) (current_month st)) ;;
  loaded_data <- match loaded_data with
                 | None => on_disk (load_data io (current_year st) (current_month st))
                 | Some data => ret data
                 end ;;
  for_in (range 0 MAX_HABIT_ROWS) (fun i =>
    let row_index := START_ROW_INDEX + i in
    _create_habit_entry row_index loaded_data ;;
    for_in (range 1 (days_in_month + 1)) (fun j =>
      _create_day_cell row_index j loaded_data)).

(** The one-shot [root.after(1000, self._display_all_habits)] of the
    success branch is the event [Timer] of the session below. *)
Definition _save_current_data : M App unit :=
  st <- get ;;
  if negb (initialized st) then ret tt
  else
    data <- _collect_current_data ;;
    if negb (truthy_list data) then
      modify (set_status_text STATUS_EMPTY_DATA)
    else
      success <- on_disk (save_data io (current_year st) (current_month st) data) ;;
      if success then
        modify (set_status_text (STATUS_SAVED (current_year st) (current_month st)))
      else
        modify (set_status_text STATUS_SAVE_ERROR).

Definition _update_calendar (year month : Z) (is_initial_load : bool) : M App unit :=
  st <- get ;;
  when (initialized st && negb is_initial_load) _save_current_data ;;
  modify (set_current year month) ;;
  modify (set_habit_entries ∅) ;;
  _clear_calendar ;;
  loaded_data <- on_disk (load_data io year month) ;;
  _render_calendar_header ;;
  _render_calendar_body (Some loaded_data) ;;
  _display_all_habits.

Definition _change_month (delta : Z) : M App unit :=
  st <- get ;;
  let new_month := current_month st + delta in
  let new_year := current_year st in
  let '(new_month, new_year) :=
    if new_month <? 1 then (12, new_year - 1)
    else if 12 <? new_month then (1, new_year + 1)
    else (new_month, new_year) in
  if negb (in_YEAR_RANGE new_year) then ret tt
  else
    modify (set_month_var (str new_month)) ;;
    modify (set_year_var (str new_year)) ;;
    _update_calendar new_year new_month false.

Definition _change_year (delta : Z) : M App unit :=
  st <- get ;;
  let new_year := current_year st + delta in
  when (in_YEAR_RANGE new_year)
    (modify (set_year_var (str new_year)) ;;
     _update_calendar new_year (current_month st) false).

(** The colour a click gives a day label, and the state that the handler
    writes to its log for it. *)
Definition toggled (current_color : string) : string :=
  if String.eqb current_color COLOR_DEFAULT then COLOR_COMPLETED else COLOR_DEFAULT.

Definition logged_state (new_color : string) : bool :=
  String.eqb new_color COLOR_COMPLETED.

(** [event.widget] is the day label at [widget]; reading the background
    of a label that does not exist raises [TclError]. *)
Definition _toggle_cell_status (widget : Z * Z) : M App unit :=
  st <- get ;;
  match calendar_frame st !! widget with
  | None => raise TclError
  | Some current_color =>
      let new_color := toggled current_color in
      config_background widget new_color ;;
      _save_current_data
  end.

Definition _on_habit_update : M App unit :=
  _save_current_data ;;
  _display_all_habits.

Definition py_int (s : string) : outcome Z :=
  match int pf s with
  | Some n => Ok n
  | None => Raise ValueError
  end.

(** The one-shot [root.after(100, self._display_all_habits)] after a
    navigation is the event [Timer] as well. *)
Definition _on_update_button_click : M App unit :=
  try_except
    (st <- get ;;
     selected_year <- lift (py_int (year_var st)) ;;
     selected_month <- lift (py_int (month_var st)) ;;
     if negb (in_YEAR_RANGE selected_year)
        || negb ((1 <=? selected_month) && (selected_month <=? 12)) then
       modify (set_status_text STATUS_INVALID_DATE)
     else
       _update_calendar selected_year selected_month false)
    is_ValueError
    (fun _ => modify (set_status_text STATUS_INVALID_INPUT)).

(** [self.root.destroy()] destroys every widget: no entry and no day
    label is left (the dictionary keeps references to dead widgets, and
    no handler runs any more). *)
Definition root_destroy : M App unit :=
  modify (fun st => set_calendar_frame ∅ (set_habit_entries ∅ st)).

(** [messagebox.showwarning(title, message)]. *)
Definition showwarning (title message : string) : M App unit :=
  modify (fun st => set_messagebox (messagebox st ++ [(title, message)]) st).

Definition CLOSE_WARNING : string * string :=
  ("保存エラー",
   "データの保存中にエラーが発生しました。" ++ String "010"
     "一部のデータが保存されていない可能性があります。").

(** The except branch logs and shows the warning dialog; the window is
    destroyed in either case. *)
Definition _on_close : M App unit :=
  try_except _save_current_data is_Exception
    (fun _ => showwarning CLOSE_WARNING.1 CLOSE_WARNING.2) ;;
  root_destroy.

(** [CalendarApp.__init__] from the point where its data manager exists:
    [now_year] and [now_month] are what [datetime.now()] answers, [fs] is
    the data directory that [DataManager()] found or created.  The whole
    constructor is [construct] below. *)
Definition __init__ (now_year now_month : Z) (fs : gmap string file)
    : App * outcome unit :=
  (_update_calendar now_year now_month true ;;
   modify (set_initialized true) ;;
   _display_all_habits)
    (mkApp now_year now_month false (str now_year) (str now_month) ""
           ∅ ∅ fs []).

(** [CalendarApp(root)] as [main] calls it: the data manager is built
    first; when its [os.makedirs] raises, the constructor raises before
    anything is shown and there is no application. *)
Definition construct (makedirs_fails : bool) (now_year now_month : Z)
    (fs : gmap string file) : outcome App :=
  match DataManager.__init__ makedirs_fails with
  | Raise e => Raise e
  | Ok _ =>
      match __init__ now_year now_month fs with
      | (st, Ok _) => Ok st
      | (_, Raise e) => Raise e
      end
  end.

(** *** The events of a session

    Tk calls a handler only for the widget it is bound to: a click
    reaches [_toggle_cell_status] only on an existing day label, typing
    and [<FocusOut>] only on an existing entry.  The update button is
    created without a command (its [command=] argument is commented out),
    so a click on it runs no handler: [_on_update_button_click] is
    reached by a direct call only. *)
Inductive event : Type :=
  | Key_Left | Key_Right | Key_Up | Key_Down
  | Control_s
  | Button_1 (row column : Z)
  | Typed (row : Z) (text : string)
  | FocusOut (row : Z)
  | Selected_year (choice : string)
  | Selected_month (choice : string)
  | Update_button
  | Timer
  | WM_DELETE_WINDOW.

Definition handle (e : event) : M App unit :=
  match e with
  | Key_Left => _change_month (-1)
  | Key_Right => _change_month 1
  | Key_Up => _change_year 1
  | Key_Down => _change_year (-1)
  | Control_s => _save_current_data
  | Button_1 row column =>
      st <- get ;;
      when (bool_decide (is_Some (calendar_frame st !! (row, column))))
        (_toggle_cell_status (row, column))
  | Typed row text =>
      modify (fun st =>
        set_habit_entries
          (alter (fun entry => mkEntry text (entry_bg entry)) row (habit_entries st)) st)
  | FocusOut row =>
      st <- get ;;
      when (bool_decide (is_Some (habit_entries st !! row))) _on_habit_update
  | Selected_year choice => modify (set_year_var choice)
  | Selected_month choice => modify (set_month_var choice)
  | Update_button => ret tt
  | Timer => _display_all_habits
  | WM_DELETE_WINDOW => _on_close
  end.

(** [root.mainloop()]: the events of a session one after the other, from
    the state that startup left.  The loop ends when the window is
    destroyed: the events that follow a [WM_DELETE_WINDOW] are not
    delivered. *)
Definition closes (e : event) : bool :=
  match e with
  | WM_DELETE_WINDOW => true
  | _ => false
  end.

Fixpoint run_events (es : list event) (st : App) : App :=
  match es with
  | [] => st
  | e :: es' =>
      if closes e then (handle e st).1 else run_events es' (handle e st).1
  end.

End WithPlatform.

End CalendarApp.

(** ** The month grid that the widgets stand for

    The data model of the specification: a habit row is a name and one
    completion flag per day, a month grid is ten such rows.  A day label
    carries the flag that a click tests, [current_color == COLOR_DEFAULT]:
    the day is marked iff its background is not the default one. *)

Module Grid.

Import calendar CalendarApp.

Record HabitRow : Type := mkRow {
  name : string;
  dayFlags : list bool;
}.

Record MonthGrid : Type := mkGrid {
  year : Z;
  month : Z;
  rows : list HabitRow;
}.

Definition flag (bg : string) : bool := negb (String.eqb bg COLOR_DEFAULT).

(** What the widgets of a row show; a widget that is missing shows the
    default, as [_collect_current_data] reads it. *)
Definition habit_name (st : App) (row_index : Z) : string :=
  match habit_entries st !! row_index with
  | Some entry => entry_get entry
  | None => ""
  end.

Definition cell_color (st : App) (row_index col_index : Z) : string :=
  match calendar_frame st !! (row_index, col_index) with
  | Some bg => bg
  | None => COLOR_DEFAULT
  end.

Definition habit_row (st : App) (days : Z) (i : Z) : HabitRow :=
  mkRow (habit_name st (START_ROW_INDEX + i))
        (map (fun j => flag (cell_color st (START_ROW_INDEX + i) j)) (range 1 (days + 1))).

Definition month_grid (st : App) : MonthGrid :=
  mkGrid (current_year st) (current_month st)
         (map (habit_row st (ndays (current_year st) (current_month st)))
              (range 0 MAX_HABIT_ROWS)).

(** The values a snapshot holds for habit slot [i] and day [j]: the stored
    one where the snapshot has it, the default (empty name, default
    background) where the row, the day or the key is missing. *)
Definition snapshot_name (data : list (list (gmap string string))) (i : Z) : string :=
  match data !! Z.to_nat i with
  | Some (first :: _) => default "" (first !! "text")
  | _ => ""
  end.

Definition snapshot_color (data : list (list (gmap string string))) (i j : Z) : string :=
  match data !! Z.to_nat i with
  | Some row =>
      match row !! Z.to_nat j with
      | Some cell => default COLOR_DEFAULT (cell !! "bg")
      | None => COLOR_DEFAULT
      end
  | None => COLOR_DEFAULT
  end.

(** The widgets that rendering a snapshot creates, on top of the widgets
    [entries] and [frame] that are there. *)
Definition rendered_entries (pf : Platform) (data : list (list (gmap string string)))
    (entries : gmap Z Entry) : gmap Z Entry :=
  foldl (fun e i =>
           <[START_ROW_INDEX + i := mkEntry (snapshot_name data i) (entry_background pf)]> e)
        entries (range 0 MAX_HABIT_ROWS).

Definition rendered_row (data : list (list (gmap string string))) (days i : Z)
    (frame : gmap (Z * Z) string) : gmap (Z * Z) string :=
  foldl (fun g j => <[(START_ROW_INDEX + i, j) := snapshot_color data i j]> g)
        frame (range 1 (days + 1)).

Definition rendered_frame (data : list (list (gmap string string))) (days : Z)
    (frame : gmap (Z * Z) string) : gmap (Z * Z) string :=
  foldl (fun g i => rendered_row data days i g) frame (range 0 MAX_HABIT_ROWS).

(** The text that [_display_all_habits] puts in the status bar. *)
Definition all_habits_text (pf : Platform) (entries : gmap Z Entry) : string :=
  let habit_texts :=
    omap (fun item : Z * Entry =>
            let habit_text := strip pf (entry_get item.2) in
            if truthy_str habit_text then
              Some (str (item.1 - START_ROW_INDEX + 1) +:+ ": " +:+ habit_text)
            else None)
         (sorted_items entries) in
  if truthy_list habit_texts then STATUS_HABITS_LIST (join " | " habit_texts)
  else STATUS_NO_HABITS.

(** What a read of the slot of (year, month) answers, and the state
    that a save of the shown grid leaves. *)
Definition loaded (io : IOEnv) (fs : gmap string file) (year month : Z)
    : list (list (gmap string string)) :=
  match fs !! DataManager._get_filename year month with
  | Some (Pickle data) =>
      if open_rb_fails io (DataManager._get_filename year month) then [] else data
  | _ => []
  end.

Definition snapshot (st : App) : list (list (gmap string string)) :=
  map (row_data st (ndays (current_year st) (current_month st))) (range 0 MAX_HABIT_ROWS).

Definition saved (io : IOEnv) (st : App) : App :=
  let filename := DataManager._get_filename (current_year st) (current_month st) in
  if open_wb_fails io filename then set_status_text STATUS_SAVE_ERROR st
  else if dump_fails io filename then
    set_status_text STATUS_SAVE_ERROR
      (set_data_dir (<[filename := Garbage]> (data_dir st)) st)
  else
    set_status_text (STATUS_SAVED (current_year st) (current_month st))
      (set_data_dir (<[filename := Pickle (snapshot st)]> (data_dir st)) st).

(** The state that [_update_calendar] leaves: the grid that was shown
    is saved unless this is the first load, and the widgets are those of
    the snapshot read for (year, month). *)
Definition updated (pf : Platform) (io : IOEnv) (year month : Z)
    (is_initial_load : bool) (st : App) : App :=
  let st_saved := if initialized st && negb is_initial_load then saved io st else st in
  let data := loaded io (data_dir st_saved) year month in
  let entries := rendered_entries pf data ∅ in
  mkApp year month (initialized st) (year_var st) (month_var st)
        (all_habits_text pf entries) entries
        (rendered_frame data (ndays year month) ∅) (data_dir st_saved)
        (messagebox st).

(** A write to the slot of (year, month) is atomic when the slot afterwards
    holds the new snapshot or is as it was before. *)
Definition atomic_overwrite (io : IOEnv) (year month : Z)
    (data : list (list (gmap string string))) (fs : gmap string file) : Prop :=
  let filename := DataManager._get_filename year month in
  (DataManager.save_data io year month data fs).1 !! filename = Some (Pickle data)
  \/ (DataManager.save_data io year month data fs).1 !! filename = fs !! filename.

(** An error is reported by raising or through the status bar. *)
Definition error_reported (r : App * outcome unit) : bool :=
  raised r.2
  || bool_decide (status_text r.1 ∈ [STATUS_SAVE_ERROR; STATUS_EMPTY_DATA;
                                     STATUS_INVALID_DATE; STATUS_INVALID_INPUT]).


(** The session invariant on the shown date. *)
Definition month_ok (st : App) : Prop := 1 <= current_month st <= 12.

Definition year_ok (st : App) : Prop := 2020 <= current_year st <= 2025.

Definition date_ok (st : App) : Prop := year_ok st /\ month_ok st.

(** What every step of a session keeps: the month in 1..12, the
    initialisation flag, and the year in 2020..2025 once it is there. *)
Definition keeps (st st' : App) : Prop :=
  month_ok st' /\ initialized st' = initialized st /\ (year_ok st -> year_ok st').

End Grid.

(** ** A concrete platform and concrete sessions

    Instances on which the statements below are exercised: a platform,
    file systems with and without faults, and the states of sessions
    started in May 2025 on an empty data directory and in June 2025 on a
    directory that holds a snapshot for May.  The platform agrees with
    Python on ASCII strings only: its [strip] removes the ASCII white
    space characters and its [int] reads an optional sign and decimal
    digits between white space (no underscores, no other digits). *)

Module Demo.

Import CalendarApp Grid.

Definition is_space (a : ascii) : bool :=
  bool_decide (a ∈ [" "; "009"; "010"; "011"; "012"; "013";
                    "028"; "029"; "030"; "031"]%char).

Fixpoint lstrip (s : string) : string :=
  match s with
  | String a s' => if is_space a then lstrip s' else s
  | EmptyString => EmptyString
  end.

Definition ascii_strip (s : string) : string :=
  String.rev (lstrip (String.rev (lstrip s))).

Definition is_digit (a : ascii) : bool :=
  bool_decide (a ∈ ["0"; "1"; "2"; "3"; "4"; "5"; "6"; "7"; "8"; "9"]%char).

Fixpoint all_digits (s : string) : bool :=
  match s with
  | EmptyString => true
  | String a s' => is_digit a && all_digits s'
  end.

Definition digits (s : string) : option Z :=
  match s with
  | EmptyString => None
  | String _ _ =>
      if all_digits s then Z.of_uint <$> NilEmpty.uint_of_string s else None
  end.

Definition decimal_int (s : string) : option Z :=
  match ascii_strip s with
  | String a rest =>
      if Ascii.eqb a "+" then digits rest
      else if Ascii.eqb a "-" then Z.opp <$> digits rest
      else digits (String a rest)
  | EmptyString => None
  end.

Definition pf : Platform := Build_Platform ascii_strip decimal_int "white".

Definition io_ok : IOEnv :=
  Build_IOEnv (fun _ => false) (fun _ => false) (fun _ => false).

Definition io_read_only : IOEnv :=
  Build_IOEnv (fun _ => true) (fun _ => false) (fun _ => false).

Definition io_disk_full : IOEnv :=
  Build_IOEnv (fun _ => false) (fun _ => true) (fun _ => false).

Definition may_2025 : App := (__init__ pf io_ok 2025 5 ∅).1.

Definition old_snapshot : list (list (gmap string string)) :=
  [[entry_dict "Exercise" "white"; cell_dict COLOR_COMPLETED]].

Definition new_snapshot : list (list (gmap string string)) :=
  [[entry_dict "Exercise" "white"; cell_dict COLOR_DEFAULT]].

Definition old_disk : gmap string file :=
  {[DataManager._get_filename 2025 5 := Pickle old_snapshot]}.

Definition june_2025 : App := (__init__ pf io_ok 2025 6 old_disk).1.

Definition garbage_disk : gmap string file :=
  {[DataManager._get_filename 2025 4 := Garbage]}.

End Demo.

(** ** Notions used by the properties

    Whether a character occurs in a string; the calendar month after and
    before a (year, month) pair and the target of an arrow key; the two
    colours the application gives a day label, on the labels that are
    shown and in the snapshots that are stored; the selectors showing the
    date that is shown. *)

Module Notions.

Import calendar CalendarApp Grid.

Fixpoint occurs (c : ascii) (s : string) : bool :=
  match s with
  | EmptyString => false
  | String a s' => Ascii.eqb a c || occurs c s'
  end.

Definition next_month (year month : Z) : Z * Z :=
  if month =? 12 then (year + 1, 1) else (year, month + 1).


(** The pair (new_month, new_year) that [_change_month] computes. *)
Definition month_target (delta year month : Z) : Z * Z :=
  if month + delta <? 1 then (12, year - 1)
  else if 12 <? month + delta then (1, year + 1)
  else (month + delta, year).

Definition two_colored (color : string) : Prop :=
  color = COLOR_DEFAULT \/ color = COLOR_COMPLETED.

(** Every day label has one of the two colours. *)
Definition frame_ok (st : App) : Prop :=
  forall widget color, calendar_frame st !! widget = Some color -> two_colored color.

(** Every snapshot of the data directory gives a day one of the two
    colours (index 0 of a row is the habit entry, days start at 1). *)
Definition disk_ok (fs : gmap string file) : Prop :=
  forall filename data i j,
    fs !! filename = Some (Pickle data) -> 1 <= j ->
    two_colored (snapshot_color data i j).

Definition selectors_synced (st : App) : Prop :=
  year_var st = str (current_year st) /\ month_var st = str (current_month st).

(** [st'] shows the month that [st] shows, with the same habit names and
    the same colour on every day of the ten rows. *)
Definition shows_same_grid (st st' : App) : Prop :=
  current_year st' = current_year st
  /\ current_month st' = current_month st
  /\ month_grid st' = month_grid st
  /\ forall i, 0 <= i < MAX_HABIT_ROWS ->
       habit_name st' (START_ROW_INDEX + i) = habit_name st (START_ROW_INDEX + i)
       /\ forall j, 1 <= j <= ndays (current_year st) (current_month st) ->
            cell_color st' (START_ROW_INDEX + i) j = cell_color st (START_ROW_INDEX + i) j.

(** A habit name that [strip] leaves empty. *)
Definition blank (pf : Platform) (entry : Entry) : Prop :=
  strip pf (entry_get entry) = "".

End Notions.

(** * Properties *)

Import calendar DataManager CalendarApp Grid Notions.

Arguments _get_filename : simpl never.
Arguments str : simpl never.
Arguments range : simpl never.

(** Case analysis on every conditional of the goal. *)
Ltac case_ifs :=
  repeat match goal with |- context [if ?b then _ else _] => destruct b end.

(** ** Control flow *)

Lemma bind_ok {S A B} (m : M S A) (k : A -> M S B) s s' a :
  m s = (s', Ok a) -> bind m k s = k a s'.
Proof. intros H. unfold bind. rewrite H. reflexivity. Qed.

Lemma bind_raise {S A B} (m : M S A) (k : A -> M S B) s s' e :
  m s = (s', Raise e) -> bind m k s = (s', Raise e).
Proof. intros H. unfold bind. rewrite H. reflexivity. Qed.

(** A loop whose body never raises is a left fold of its effect. *)
Lemma for_in_fold {S X} (f : S -> X -> S) (body : X -> M S unit) (xs : list X) :
  (forall x s, x ∈ xs -> body x s = (f s x, Ok tt)) ->
  forall s, for_in xs body s = (foldl f s xs, Ok tt).
Proof.
  induction xs as [|x xs IH]; intros Hbody s; [reflexivity|].
  cbn [for_in foldl].
  rewrite (bind_ok _ _ s (f s x) tt) by (apply Hbody; left).
  apply IH. intros y t Hy. apply Hbody. right. exact Hy.
Qed.

(** ** Lists and ranges *)

Lemma elem_of_range lo hi x : x ∈ range lo hi <-> lo <= x < hi.
Proof. unfold range. rewrite elem_of_seqZ. lia. Qed.

Lemma range_rows : range 0 MAX_HABIT_ROWS = [0; 1; 2; 3; 4; 5; 6; 7; 8; 9].
Proof. reflexivity. Qed.

Lemma in_YEAR_RANGE_spec y : in_YEAR_RANGE y = true <-> 2020 <= y <= 2025.
Proof.
  unfold in_YEAR_RANGE, YEAR_RANGE. rewrite bool_decide_eq_true, elem_of_range. lia.
Qed.

Lemma in_YEAR_RANGE_false y : in_YEAR_RANGE y = false <-> ~ (2020 <= y <= 2025).
Proof.
  rewrite <- in_YEAR_RANGE_spec. destruct (in_YEAR_RANGE y); split; congruence.
Qed.

Lemma getitem_lookup {A} (l : list A) (i : Z) :
  0 <= i ->
  getitem l i = match l !! Z.to_nat i with
                | Some x => Ok x
                | None => Raise IndexError
                end.
Proof.
  intros Hi. unfold getitem, len.
  destruct (Z.ltb_spec i 0); [lia|].
  destruct (Z.leb_spec 0 i); [|lia]. cbn [andb].
  destruct (Z.ltb_spec i (Z.of_nat (length l))) as [Hlt|Hge]; [reflexivity|].
  rewrite lookup_ge_None_2 by lia. reflexivity.
Qed.

(** ** The calendar *)

Lemma monthrange_days_ok y m :
  1 <= m <= 12 -> monthrange_days y m = Ok (ndays y m).
Proof.
  intros [H1 H2]. unfold monthrange_days.
  destruct (Z.leb_spec 1 m); [|lia]. destruct (Z.leb_spec m 12); [|lia]. reflexivity.
Qed.

Lemma ndays_month_bounds y m : 1 <= m <= 12 -> 28 <= ndays y m <= 31.
Proof.
  intros Hm. unfold ndays, mdays.
  destruct (Z.eqb_spec m 2) as [->|Hne]; cbn [andb orb].
  - destruct (isleap y); lia.
  - destruct ((m =? 4) || (m =? 6) || (m =? 9) || (m =? 11)); lia.
Qed.

Lemma ndays_nonneg y m : 0 <= ndays y m.
Proof.
  unfold ndays, mdays.
  case_ifs; lia.
Qed.

Example ndays_leap : ndays 2024 2 = 29 /\ ndays 2023 2 = 28 /\ ndays 2025 5 = 31.
Proof. repeat split. Qed.

(** ** The persistence store *)

Lemma save_data_cases io year month data fs :
  data <> [] ->
  save_data io year month data fs =
    if open_wb_fails io (_get_filename year month) then (fs, Ok false)
    else if dump_fails io (_get_filename year month) then
      (<[_get_filename year month := Garbage]> fs, Ok false)
    else (<[_get_filename year month := Pickle data]> fs, Ok true).
Proof.
  intros Hdata. destruct data as [|row data]; [congruence|].
  unfold save_data, try_except, bind, open_wb, pickle_dump, ret. cbn [truthy_list negb].
  destruct (open_wb_fails io (_get_filename year month)); [reflexivity|].
  destruct (dump_fails io (_get_filename year month)); [reflexivity|].
  rewrite insert_insert_eq. reflexivity.
Qed.

Lemma load_data_loaded io year month fs :
  load_data io year month fs = (fs, Ok (loaded io fs year month)).
Proof.
  unfold load_data, loaded, bind, os_path_exists, try_except, open_rb, lift, ret.
  destruct (fs !! _get_filename year month) as [f|] eqn:Hf.
  - rewrite bool_decide_eq_true_2 by eauto.
    destruct (open_rb_fails io (_get_filename year month)).
    + destruct f; reflexivity.
    + rewrite Hf. destruct f; reflexivity.
  - rewrite bool_decide_eq_false_2 by (intros [? ?]; congruence). reflexivity.
Qed.

(** ** Reading and saving the shown grid *)

Section Handlers.

Variable pf : Platform.
Variable io : IOEnv.

Lemma _display_all_habits_spec st :
  _display_all_habits pf st
  = (set_status_text (all_habits_text pf (habit_entries st)) st, Ok tt).
Proof.
  unfold _display_all_habits, all_habits_text, bind, get, modify.
  match goal with |- context [truthy_list ?l] => destruct (truthy_list l) end; reflexivity.
Qed.

Lemma _collect_current_data_spec st :
  month_ok st -> _collect_current_data st = (st, Ok (snapshot st)).
Proof.
  intros Hm. unfold _collect_current_data, bind, get, lift, ret.
  rewrite monthrange_days_ok by exact Hm. reflexivity.
Qed.

Lemma _collect_current_data_raises st :
  ~ month_ok st -> _collect_current_data st = (st, Raise IllegalMonthError).
Proof.
  intros Hm. unfold _collect_current_data, bind, get, lift, ret, monthrange_days.
  unfold month_ok in Hm.
  destruct (Z.leb_spec 1 (current_month st)), (Z.leb_spec (current_month st) 12);
    try reflexivity; lia.
Qed.

Lemma snapshot_nonempty st : snapshot st <> [].
Proof. unfold snapshot. rewrite range_rows. discriminate. Qed.

Lemma _save_current_data_spec st :
  initialized st = true -> month_ok st ->
  _save_current_data io st = (saved io st, Ok tt).
Proof.
  intros Hinit Hm. unfold _save_current_data.
  rewrite (bind_ok _ _ st st st) by reflexivity. rewrite Hinit. cbn [negb].
  rewrite (bind_ok _ _ st st (snapshot st)) by (apply _collect_current_data_spec, Hm).
  pose proof (snapshot_nonempty st) as Hne.
  destruct (snapshot st) as [|row data] eqn:Hsnap; [congruence|]. cbn [truthy_list negb].
  unfold bind, on_disk, modify, saved. rewrite save_data_cases by discriminate.
  rewrite Hsnap.
  destruct (open_wb_fails io _); [destruct st; reflexivity|].
  destruct (dump_fails io _); reflexivity.
Qed.

Lemma _save_current_data_uninitialized st :
  initialized st = false -> _save_current_data io st = (st, Ok tt).
Proof.
  intros Hinit. unfold _save_current_data.
  rewrite (bind_ok _ _ st st st) by reflexivity. rewrite Hinit. reflexivity.
Qed.

End Handlers.

(** ** Rendering a snapshot *)

Section Rendering.

Variable pf : Platform.
Variable io : IOEnv.

Lemma row_offset_eq i : START_ROW_INDEX + i - START_ROW_INDEX = i.
Proof. lia. Qed.

Lemma lookup_len_Some {A} (l : list A) (i : Z) :
  0 <= i -> i < len l -> exists x, l !! Z.to_nat i = Some x.
Proof.
  intros H0 Hlt. apply lookup_lt_is_Some_2. unfold len in Hlt. lia.
Qed.

Lemma lookup_len_None {A} (l : list A) (i : Z) :
  0 <= i -> len l <= i -> l !! Z.to_nat i = None.
Proof.
  intros H0 Hge. apply lookup_ge_None_2. unfold len in Hge. lia.
Qed.

Lemma _create_habit_entry_spec i data st :
  0 <= i ->
  _create_habit_entry pf (START_ROW_INDEX + i) data st
  = (set_habit_entries
       (<[START_ROW_INDEX + i := mkEntry (snapshot_name data i) (entry_background pf)]>
          (habit_entries st)) st, Ok tt).
Proof.
  intros Hi. unfold _create_habit_entry. rewrite row_offset_eq.
  assert (Htext :
    (if truthy_list data && (0 <=? i) && (i <? len data)
     then row <- lift (getitem data i) ;;
          (if truthy_list row
           then first <- lift (getitem row 0) ;;
                match first !! "text" with
                | Some text => if truthy_str text then ret text else ret ""
                | None => ret ""
                end
           else ret "")
     else ret "") st = (st, Ok (snapshot_name data i))).
  { unfold snapshot_name.
    destruct (Z.leb_spec 0 i); [|lia].
    destruct (Z.ltb_spec i (len data)) as [Hlt|Hge].
    - destruct (lookup_len_Some data i Hi Hlt) as [row Hrow].
      assert (truthy_list data = true) as ->.
      { destruct data; [|reflexivity]. unfold len in Hlt. cbn in Hlt. lia. }
      cbn [andb]. unfold bind, lift. rewrite getitem_lookup, Hrow by lia.
      destruct row as [|first row]; [reflexivity|]. cbn [truthy_list].
      rewrite getitem_lookup by lia.
      change ((first :: row) !! Z.to_nat 0) with (Some first). cbv beta iota.
      destruct (first !! "text") as [text|]; [|reflexivity].
      destruct text; reflexivity.
    - rewrite lookup_len_None by lia.
      rewrite andb_false_r. reflexivity. }
  rewrite (bind_ok _ _ st st _ Htext). reflexivity.
Qed.

Lemma _create_day_cell_spec i j data st :
  0 <= i -> 0 <= j ->
  _create_day_cell (START_ROW_INDEX + i) j data st
  = (set_calendar_frame
       (<[(START_ROW_INDEX + i, j) := snapshot_color data i j]> (calendar_frame st)) st,
     Ok tt).
Proof.
  intros Hi Hj. unfold _create_day_cell, _restore_cell_background, config_background.
  rewrite row_offset_eq. unfold bind at 1. unfold modify at 1.
  unfold snapshot_color.
  destruct (Z.leb_spec (len data) i) as [Hge|Hlt].
  - rewrite orb_true_r, lookup_len_None by lia. reflexivity.
  - destruct (lookup_len_Some data i Hi Hlt) as [row Hrow].
    assert (truthy_list data = true) as ->.
    { destruct data; [|reflexivity]. unfold len in Hlt. cbn in Hlt. lia. }
    cbn [negb orb]. unfold bind, lift. rewrite getitem_lookup, Hrow by lia.
    destruct (Z.ltb_spec j (len row)) as [Hjlt|Hjge].
    + destruct (lookup_len_Some row j Hj Hjlt) as [cell Hcell].
      assert (truthy_list row = true) as ->.
      { destruct row; [|reflexivity]. unfold len in Hjlt. cbn in Hjlt. lia. }
      cbn [andb]. rewrite getitem_lookup, Hcell by lia.
      destruct (cell !! "bg") as [bg|]; [|reflexivity].
      unfold modify. cbn. rewrite insert_insert_eq. reflexivity.
    + rewrite andb_false_r, lookup_len_None by lia. reflexivity.
Qed.

Lemma foldl_frame {X} (h : gmap (Z * Z) string -> X -> gmap (Z * Z) string) xs st :
  foldl (fun s x => set_calendar_frame (h (calendar_frame s) x) s) st xs
  = set_calendar_frame (foldl h (calendar_frame st) xs) st.
Proof.
  revert st. induction xs as [|x xs IH]; intros st; [destruct st; reflexivity|].
  cbn [foldl]. rewrite IH. reflexivity.
Qed.

Lemma foldl_widgets {X} (he : gmap Z Entry -> X -> gmap Z Entry)
    (hf : gmap (Z * Z) string -> X -> gmap (Z * Z) string) xs st :
  foldl (fun s x =>
           set_calendar_frame (hf (calendar_frame s) x)
             (set_habit_entries (he (habit_entries s) x) s)) st xs
  = set_calendar_frame (foldl hf (calendar_frame st) xs)
      (set_habit_entries (foldl he (habit_entries st) xs) st).
Proof.
  revert st. induction xs as [|x xs IH]; intros st; [destruct st; reflexivity|].
  cbn [foldl]. rewrite IH. reflexivity.
Qed.

(** The inner loop of [_render_calendar_body]: the day labels of one row. *)
Lemma render_row_spec i days data st :
  0 <= i ->
  for_in (range 1 (days + 1)) (fun j => _create_day_cell (START_ROW_INDEX + i) j data) st
  = (set_calendar_frame (rendered_row data days i (calendar_frame st)) st, Ok tt).
Proof.
  intros Hi.
  rewrite (for_in_fold
             (fun s j =>
                set_calendar_frame
                  (<[(START_ROW_INDEX + i, j) := snapshot_color data i j]> (calendar_frame s)) s)).
  - rewrite (foldl_frame
               (fun g j => <[(START_ROW_INDEX + i, j) := snapshot_color data i j]> g)).
    reflexivity.
  - intros j s Hj. apply elem_of_range in Hj.
    apply _create_day_cell_spec; lia.
Qed.

Lemma _render_calendar_body_spec data st :
  month_ok st ->
  _render_calendar_body pf io (Some data) st
  = (set_calendar_frame
       (rendered_frame data (ndays (current_year st) (current_month st)) (calendar_frame st))
       (set_habit_entries (rendered_entries pf data (habit_entries st)) st),
     Ok tt).
Proof.
  intros Hm. unfold _render_calendar_body.
  rewrite (bind_ok _ _ st st st) by reflexivity.
  rewrite (bind_ok _ _ st st (ndays (current_year st) (current_month st)))
    by (unfold lift; rewrite monthrange_days_ok by exact Hm; reflexivity).
  rewrite (bind_ok _ _ st st data) by reflexivity.
  set (days := ndays (current_year st) (current_month st)).
  rewrite (for_in_fold
             (fun s i =>
                set_calendar_frame (rendered_row data days i (calendar_frame s))
                  (set_habit_entries
                     (<[START_ROW_INDEX + i :=
                          mkEntry (snapshot_name data i) (entry_background pf)]>
                        (habit_entries s)) s))).
  - rewrite (foldl_widgets
               (fun e i =>
                  <[START_ROW_INDEX + i :=
                      mkEntry (snapshot_name data i) (entry_background pf)]> e)
               (fun g i => rendered_row data days i g)).
    reflexivity.
  - intros i s Hi. apply elem_of_range in Hi.
    erewrite bind_ok by (apply _create_habit_entry_spec; lia).
    rewrite render_row_spec by lia. reflexivity.
Qed.

End Rendering.

(** *** The widgets after rendering *)

(** A fold of updates that leave key [k] alone leaves it alone; a fold in
    which the update of [x] sets [k] and the others leave it alone sets it. *)
Lemma foldl_lookup_other {X K V} `{Countable K}
    (h : gmap K V -> X -> gmap K V) (xs : list X) (k : K) :
  (forall x m, x ∈ xs -> h m x !! k = m !! k) ->
  forall m, foldl h m xs !! k = m !! k.
Proof.
  induction xs as [|y ys IH]; intros Hother m; [reflexivity|].
  cbn [foldl]. rewrite IH.
  - apply Hother. left.
  - intros x m' Hx. apply Hother. right. exact Hx.
Qed.

Lemma foldl_lookup_in {X K V} `{Countable K} `{EqDecision X}
    (h : gmap K V -> X -> gmap K V) (xs : list X) (k : K) (x : X) (v : V) :
  x ∈ xs ->
  (forall m, h m x !! k = Some v) ->
  (forall y m, y ∈ xs -> y <> x -> h m y !! k = m !! k) ->
  forall m, foldl h m xs !! k = Some v.
Proof.
  induction xs as [|y ys IH]; intros Hx Hset Hother m.
  - inversion Hx.
  - cbn [foldl]. destruct (decide (x ∈ ys)) as [Hin|Hnin].
    + apply IH; [exact Hin|exact Hset|].
      intros z m' Hz Hne. apply Hother; [right; exact Hz|exact Hne].
    + apply elem_of_cons in Hx as [->|Hin]; [|contradiction].
      rewrite foldl_lookup_other; [apply Hset|].
      intros z m' Hz. apply Hother; [right; exact Hz|].
      intros ->. contradiction.
Qed.

Section Rendered.

Variable pf : Platform.

Lemma rendered_entries_lookup data entries i :
  0 <= i < MAX_HABIT_ROWS ->
  rendered_entries pf data entries !! (START_ROW_INDEX + i)
  = Some (mkEntry (snapshot_name data i) (entry_background pf)).
Proof.
  intros Hi. unfold rendered_entries.
  apply (foldl_lookup_in _ _ _ i).
  - apply elem_of_range. exact Hi.
  - intros m. apply lookup_insert_eq.
  - intros y m _ Hne. apply lookup_insert_ne. lia.
Qed.

Lemma rendered_entries_lookup_other data entries r :
  ~ (START_ROW_INDEX <= r < START_ROW_INDEX + MAX_HABIT_ROWS) ->
  rendered_entries pf data entries !! r = entries !! r.
Proof.
  intros Hr. unfold rendered_entries. apply foldl_lookup_other.
  intros i m Hi. apply elem_of_range in Hi. apply lookup_insert_ne. lia.
Qed.

Lemma rendered_row_lookup data days i frame j :
  1 <= j <= days ->
  rendered_row data days i frame !! (START_ROW_INDEX + i, j)
  = Some (snapshot_color data i j).
Proof.
  intros Hj. unfold rendered_row.
  apply (foldl_lookup_in _ _ _ j).
  - apply elem_of_range. lia.
  - intros m. apply lookup_insert_eq.
  - intros y m _ Hne. apply lookup_insert_ne. congruence.
Qed.

Lemma rendered_row_lookup_other data days i frame r c :
  ~ (r = START_ROW_INDEX + i /\ 1 <= c <= days) ->
  rendered_row data days i frame !! (r, c) = frame !! (r, c).
Proof.
  intros Hrc. unfold rendered_row. apply foldl_lookup_other.
  intros j m Hj. apply elem_of_range in Hj. apply lookup_insert_ne.
  intros Heq. injection Heq as <- <-. apply Hrc. lia.
Qed.

Lemma rendered_frame_lookup data days frame i j :
  0 <= i < MAX_HABIT_ROWS -> 1 <= j <= days ->
  rendered_frame data days frame !! (START_ROW_INDEX + i, j)
  = Some (snapshot_color data i j).
Proof.
  intros Hi Hj. unfold rendered_frame.
  apply (foldl_lookup_in _ _ _ i).
  - apply elem_of_range. exact Hi.
  - intros m. apply rendered_row_lookup. exact Hj.
  - intros y m _ Hne. apply rendered_row_lookup_other. lia.
Qed.

Lemma rendered_frame_lookup_other data days frame r c :
  ~ (START_ROW_INDEX <= r < START_ROW_INDEX + MAX_HABIT_ROWS /\ 1 <= c <= days) ->
  rendered_frame data days frame !! (r, c) = frame !! (r, c).
Proof.
  intros Hrc. unfold rendered_frame. apply foldl_lookup_other.
  intros i m Hi. apply elem_of_range in Hi. apply rendered_row_lookup_other. lia.
Qed.

End Rendered.

(** ** Navigation *)

Section Navigation.

Variable pf : Platform.
Variable io : IOEnv.

Lemma _render_calendar_header_spec st :
  month_ok st -> _render_calendar_header st = (st, Ok tt).
Proof.
  intros Hm. unfold _render_calendar_header, bind, get, lift.
  rewrite monthrange_days_ok by exact Hm. reflexivity.
Qed.

Lemma _update_calendar_spec year month is_initial_load st :
  1 <= month <= 12 ->
  (initialized st && negb is_initial_load = true -> month_ok st) ->
  _update_calendar pf io year month is_initial_load st
  = (updated pf io year month is_initial_load st, Ok tt).
Proof.
  intros Hmonth Hold. unfold _update_calendar, updated.
  rewrite (bind_ok _ _ st st st) by reflexivity.
  set (st_saved := if initialized st && negb is_initial_load then saved io st else st).
  assert (Hsave : when (initialized st && negb is_initial_load) (_save_current_data io) st
                  = (st_saved, Ok tt)).
  { subst st_saved. destruct (initialized st && negb is_initial_load) eqn:Hc; [|reflexivity].
    apply andb_true_iff in Hc as Hc'. destruct Hc' as [Hinit _].
    cbn [when]. apply _save_current_data_spec; [exact Hinit|apply Hold; reflexivity]. }
  assert (Hinit : initialized st_saved = initialized st).
  { subst st_saved. unfold saved.
    case_ifs; reflexivity. }
  assert (Hy : year_var st_saved = year_var st).
  { subst st_saved. unfold saved.
    case_ifs; reflexivity. }
  assert (Hmv : month_var st_saved = month_var st).
  { subst st_saved. unfold saved.
    case_ifs; reflexivity. }
  assert (Hbox : messagebox st_saved = messagebox st).
  { subst st_saved. unfold saved.
    case_ifs; reflexivity. }
  rewrite (bind_ok _ _ _ _ _ Hsave). clear Hsave. clearbody st_saved.
  rewrite <- Hinit, <- Hy, <- Hmv, <- Hbox. clear Hinit Hy Hmv Hbox Hold.
  destruct st_saved as [y0 m0 ini yv mv stx ents frm dir box].
  cbn [data_dir initialized year_var month_var messagebox].
  set (data := loaded io dir year month).
  unfold _clear_calendar.
  rewrite (bind_ok _ _ _ (mkApp year month ini yv mv stx ents frm dir box) tt) by reflexivity.
  rewrite (bind_ok _ _ _ (mkApp year month ini yv mv stx ∅ frm dir box) tt) by reflexivity.
  rewrite (bind_ok _ _ _ (mkApp year month ini yv mv stx ∅ ∅ dir box) tt) by reflexivity.
  rewrite (bind_ok _ _ _ (mkApp year month ini yv mv stx ∅ ∅ dir box) data)
    by (unfold on_disk; rewrite load_data_loaded; reflexivity).
  rewrite (bind_ok _ _ _ (mkApp year month ini yv mv stx ∅ ∅ dir box) tt)
    by (apply _render_calendar_header_spec; exact Hmonth).
  rewrite (bind_ok _ _ _ _ _
             (_render_calendar_body_spec pf io data
                (mkApp year month ini yv mv stx ∅ ∅ dir box) Hmonth)).
  rewrite _display_all_habits_spec. reflexivity.
Qed.

End Navigation.

(** ** Snapshots of the shown grid *)

Lemma lookup_map {A B} (f : A -> B) (l : list A) (i : nat) :
  map f l !! i = f <$> l !! i.
Proof.
  revert i. induction l as [|x l IH]; intros [|i]; try reflexivity. apply IH.
Qed.

Lemma lookup_cons_S {A} (x : A) (l : list A) (n : nat) :
  (x :: l) !! S n = l !! n.
Proof. reflexivity. Qed.

Lemma map_ext_elem {A B} (f g : A -> B) (l : list A) :
  (forall x, x ∈ l -> f x = g x) -> map f l = map g l.
Proof.
  induction l as [|x l IH]; intros Hfg; [reflexivity|].
  cbn [map]. rewrite (Hfg x) by left. rewrite IH; [reflexivity|].
  intros y Hy. apply Hfg. right. exact Hy.
Qed.

Lemma range_lookup lo hi k :
  0 <= k < hi - lo -> range lo hi !! Z.to_nat k = Some (lo + k).
Proof.
  intros Hk. unfold range. rewrite lookup_seqZ_lt by lia. f_equal. lia.
Qed.

Lemma snapshot_lookup st i :
  0 <= i < MAX_HABIT_ROWS ->
  snapshot st !! Z.to_nat i
  = Some (row_data st (ndays (current_year st) (current_month st)) i).
Proof.
  intros Hi. unfold snapshot. rewrite lookup_map, range_lookup by lia. reflexivity.
Qed.

Lemma snapshot_name_snapshot st i :
  0 <= i < MAX_HABIT_ROWS ->
  snapshot_name (snapshot st) i = habit_name st (START_ROW_INDEX + i).
Proof.
  intros Hi. unfold snapshot_name, habit_name. rewrite snapshot_lookup by exact Hi.
  unfold row_data, entry_dict.
  destruct (habit_entries st !! (START_ROW_INDEX + i)) as [entry|];
    rewrite lookup_insert_ne, lookup_singleton_eq by discriminate; reflexivity.
Qed.

Lemma snapshot_color_snapshot st i j :
  0 <= i < MAX_HABIT_ROWS ->
  1 <= j <= ndays (current_year st) (current_month st) ->
  snapshot_color (snapshot st) i j = cell_color st (START_ROW_INDEX + i) j.
Proof.
  intros Hi Hj. unfold snapshot_color, cell_color. rewrite snapshot_lookup by exact Hi.
  unfold row_data.
  replace (Z.to_nat j) with (S (Z.to_nat (j - 1))) by lia.
  rewrite lookup_cons_S, lookup_map, range_lookup by lia.
  replace (1 + (j - 1)) with j by lia. cbn [fmap option_fmap option_map].
  unfold cell_dict.
  destruct (calendar_frame st !! (START_ROW_INDEX + i, j)) as [bg|];
    rewrite lookup_singleton_eq; reflexivity.
Qed.

(** The grid that the widgets stand for depends on the shown date and on
    the names and colours of the ten rows only. *)
Lemma month_grid_ext st st' :
  current_year st' = current_year st ->
  current_month st' = current_month st ->
  (forall i, 0 <= i < MAX_HABIT_ROWS ->
     habit_name st' (START_ROW_INDEX + i) = habit_name st (START_ROW_INDEX + i)) ->
  (forall i j, 0 <= i < MAX_HABIT_ROWS ->
     1 <= j <= ndays (current_year st) (current_month st) ->
     cell_color st' (START_ROW_INDEX + i) j = cell_color st (START_ROW_INDEX + i) j) ->
  month_grid st' = month_grid st.
Proof.
  intros Hy Hm Hname Hcolor. unfold month_grid. rewrite Hy, Hm. f_equal.
  apply map_ext_elem. intros i Hi. apply elem_of_range in Hi.
  unfold habit_row. rewrite Hname by lia. f_equal.
  apply map_ext_elem. intros j Hj. apply elem_of_range in Hj.
  rewrite Hcolor by lia. reflexivity.
Qed.

(** ** The shape of a rendered grid *)

Lemma Forall_map_intro {A B} (P : B -> Prop) (f : A -> B) (l : list A) :
  (forall x, P (f x)) -> Forall P (map f l).
Proof. intros HP. induction l; constructor; auto. Qed.

Lemma len_range lo hi : lo <= hi -> len (range lo hi) = hi - lo.
Proof. intros H. unfold len, range. rewrite length_seqZ. lia. Qed.

Lemma len_map {A B} (f : A -> B) (l : list A) : len (map f l) = len l.
Proof. unfold len. rewrite length_map. reflexivity. Qed.

Section Shape.

Variable pf : Platform.

Lemma rendered_entries_is_Some data r :
  is_Some (rendered_entries pf data ∅ !! r)
  <-> START_ROW_INDEX <= r < START_ROW_INDEX + MAX_HABIT_ROWS.
Proof.
  split.
  - intros Hsome.
    destruct (decide (START_ROW_INDEX <= r < START_ROW_INDEX + MAX_HABIT_ROWS)) as [|Hout];
      [assumption|].
    rewrite rendered_entries_lookup_other, lookup_empty in Hsome by exact Hout.
    destruct Hsome as [? ?]. discriminate.
  - intros Hr. replace r with (START_ROW_INDEX + (r - START_ROW_INDEX)) by lia.
    rewrite rendered_entries_lookup by lia. eauto.
Qed.

Lemma rendered_frame_is_Some data days r c :
  is_Some (rendered_frame data days ∅ !! (r, c))
  <-> START_ROW_INDEX <= r < START_ROW_INDEX + MAX_HABIT_ROWS /\ 1 <= c <= days.
Proof.
  split.
  - intros Hsome.
    destruct (decide (START_ROW_INDEX <= r < START_ROW_INDEX + MAX_HABIT_ROWS
                      /\ 1 <= c <= days)) as [|Hout]; [assumption|].
    rewrite rendered_frame_lookup_other, lookup_empty in Hsome by exact Hout.
    destruct Hsome as [? ?]. discriminate.
  - intros [Hr Hc]. replace r with (START_ROW_INDEX + (r - START_ROW_INDEX)) by lia.
    rewrite rendered_frame_lookup by lia. eauto.
Qed.

Lemma rendered_entries_size data : size (rendered_entries pf data ∅) = 10%nat.
Proof.
  unfold rendered_entries. rewrite range_rows. cbn [foldl].
  repeat (rewrite map_size_insert_None
            by (rewrite ?lookup_insert_ne by (unfold START_ROW_INDEX; lia);
                apply lookup_empty)).
  rewrite map_size_empty. reflexivity.
Qed.

End Shape.

Lemma month_grid_rows st :
  length (rows (month_grid st)) = 10%nat
  /\ Forall (fun row => len (dayFlags row) = ndays (current_year st) (current_month st))
       (rows (month_grid st)).
Proof.
  unfold month_grid. cbn [rows]. split.
  - rewrite length_map, range_rows. reflexivity.
  - apply Forall_map_intro. intros i. unfold habit_row. cbn [dayFlags].
    rewrite len_map, len_range; [lia|].
    pose proof (ndays_nonneg (current_year st) (current_month st)). lia.
Qed.

(** ** Clicks on a day label *)

Lemma flag_toggled color : flag (toggled color) = negb (flag color).
Proof.
  unfold flag, toggled. destruct (String.eqb color COLOR_DEFAULT); reflexivity.
Qed.

Lemma logged_state_toggled color : logged_state (toggled color) = flag (toggled color).
Proof.
  unfold logged_state, flag, toggled. destruct (String.eqb color COLOR_DEFAULT); reflexivity.
Qed.

Lemma toggled_toggled color :
  color = COLOR_DEFAULT \/ color = COLOR_COMPLETED -> toggled (toggled color) = color.
Proof. intros [->| ->]; reflexivity. Qed.

Section Clicks.

Variable pf : Platform.

(** Whether it saves, fails to save or raises, [_save_current_data]
    leaves the day labels alone. *)
Lemma _save_current_data_frame io st :
  calendar_frame (_save_current_data io st).1 = calendar_frame st.
Proof.
  destruct (initialized st) eqn:Hinit.
  - destruct (decide (month_ok st)) as [Hm|Hm].
    + rewrite _save_current_data_spec by assumption. cbn [fst]. unfold saved.
      case_ifs; reflexivity.
    + unfold _save_current_data.
      rewrite (bind_ok _ _ st st st) by reflexivity. rewrite Hinit. cbn [negb].
      rewrite (bind_raise _ _ st st IllegalMonthError)
        by (apply _collect_current_data_raises, Hm).
      reflexivity.
  - rewrite _save_current_data_uninitialized by exact Hinit. reflexivity.
Qed.

Lemma _toggle_cell_status_run io st widget color :
  calendar_frame st !! widget = Some color ->
  _toggle_cell_status io widget st
  = _save_current_data io
      (set_calendar_frame (<[widget := toggled color]> (calendar_frame st)) st).
Proof.
  intros Hcell. unfold _toggle_cell_status.
  rewrite (bind_ok _ _ st st st) by reflexivity. rewrite Hcell.
  unfold config_background.
  erewrite bind_ok by reflexivity. reflexivity.
Qed.

Lemma Button_1_run io st row column color :
  calendar_frame st !! (row, column) = Some color ->
  handle pf io (Button_1 row column) st
  = _save_current_data io
      (set_calendar_frame (<[(row, column) := toggled color]> (calendar_frame st)) st).
Proof.
  intros Hcell. cbn [handle].
  rewrite (bind_ok _ _ st st st) by reflexivity.
  rewrite bool_decide_eq_true_2 by (rewrite Hcell; eauto).
  cbn [when]. apply _toggle_cell_status_run, Hcell.
Qed.

Lemma Button_1_outside io st row column :
  calendar_frame st !! (row, column) = None ->
  handle pf io (Button_1 row column) st = (st, Ok tt).
Proof.
  intros Hcell. cbn [handle].
  rewrite (bind_ok _ _ st st st) by reflexivity.
  rewrite bool_decide_eq_false_2 by (rewrite Hcell; intros [? ?]; discriminate).
  reflexivity.
Qed.

End Clicks.

(** ** The shown date along a session *)

Section Session.

Variable pf : Platform.
Variable io : IOEnv.

Lemma keeps_refl st : month_ok st -> keeps st st.
Proof. intros Hm. split; [exact Hm|]. split; [reflexivity|auto]. Qed.

Lemma keeps_same st st' :
  month_ok st ->
  current_year st' = current_year st ->
  current_month st' = current_month st ->
  initialized st' = initialized st ->
  keeps st st'.
Proof.
  intros Hm Hy' Hm' Hi'. unfold keeps, month_ok, year_ok in *.
  rewrite Hy', Hm'. auto.
Qed.

Lemma _save_current_data_date st :
  month_ok st ->
  exists st', _save_current_data io st = (st', Ok tt)
    /\ current_year st' = current_year st
    /\ current_month st' = current_month st
    /\ initialized st' = initialized st.
Proof.
  intros Hm. destruct (initialized st) eqn:Hinit.
  - exists (saved io st). split; [apply _save_current_data_spec; assumption|].
    unfold saved. case_ifs; repeat split; cbn; auto.
  - exists st. split; [apply _save_current_data_uninitialized, Hinit|]. auto.
Qed.

Lemma _update_calendar_date year month st :
  1 <= month <= 12 -> month_ok st ->
  exists st', _update_calendar pf io year month false st = (st', Ok tt)
    /\ current_year st' = year
    /\ current_month st' = month
    /\ initialized st' = initialized st.
Proof.
  intros Hmonth Hm. exists (updated pf io year month false st).
  split; [apply _update_calendar_spec; auto|]. repeat split.
Qed.

Lemma _change_month_keeps delta st :
  month_ok st -> keeps st (_change_month pf io delta st).1.
Proof.
  intros Hm. unfold _change_month.
  rewrite (bind_ok _ _ st st st) by reflexivity.
  set (nm := current_month st + delta).
  assert (Hcases :
    exists ny nm',
      (if nm <? 1 then (12, current_year st - 1)
       else if 12 <? nm then (1, current_year st + 1)
       else (nm, current_year st)) = (nm', ny)
      /\ 1 <= nm' <= 12).
  { destruct (Z.ltb_spec nm 1); [eexists _, _; split; [reflexivity|lia]|].
    destruct (Z.ltb_spec 12 nm); eexists _, _; (split; [reflexivity|lia]). }
  destruct Hcases as (ny & nm' & -> & Hnm').
  destruct (in_YEAR_RANGE ny) eqn:Hrange; cbn [negb].
  - apply in_YEAR_RANGE_spec in Hrange.
    do 2 (erewrite bind_ok by reflexivity).
    destruct (_update_calendar_date ny nm'
                (set_year_var (str ny) (set_month_var (str nm') st)) Hnm' Hm)
      as (st' & Hrun & Hy' & Hm' & Hi').
    rewrite Hrun. cbn [fst]. unfold keeps, month_ok, year_ok.
    rewrite Hy', Hm', Hi'. auto.
  - apply keeps_refl, Hm.
Qed.

Lemma _change_year_keeps delta st :
  month_ok st -> keeps st (_change_year pf io delta st).1.
Proof.
  intros Hm. unfold _change_year.
  rewrite (bind_ok _ _ st st st) by reflexivity.
  destruct (in_YEAR_RANGE (current_year st + delta)) eqn:Hrange; cbn [when].
  - apply in_YEAR_RANGE_spec in Hrange.
    erewrite bind_ok by reflexivity.
    destruct (_update_calendar_date (current_year st + delta) (current_month st)
                (set_year_var (str (current_year st + delta)) st) Hm Hm)
      as (st' & Hrun & Hy' & Hm' & Hi').
    rewrite Hrun. cbn [fst]. unfold keeps, month_ok, year_ok.
    rewrite Hy', Hm', Hi'. auto.
  - apply keeps_refl, Hm.
Qed.

(** What the update handler does, by the selection. *)
Lemma _on_update_button_click_cases st :
  _on_update_button_click pf io st
  = match int pf (year_var st), int pf (month_var st) with
    | Some y, Some m =>
        if negb (in_YEAR_RANGE y) || negb ((1 <=? m) && (m <=? 12)) then
          (set_status_text STATUS_INVALID_DATE st, Ok tt)
        else
          try_except (_update_calendar pf io y m false) is_ValueError
            (fun _ => modify (set_status_text STATUS_INVALID_INPUT)) st
    | _, _ => (set_status_text STATUS_INVALID_INPUT st, Ok tt)
    end.
Proof.
  unfold _on_update_button_click, try_except, py_int.
  rewrite (bind_ok _ _ st st st) by reflexivity.
  destruct (int pf (year_var st)) as [y|]; [|reflexivity].
  rewrite (bind_ok _ _ st st y) by reflexivity.
  destruct (int pf (month_var st)) as [m|]; [|reflexivity].
  rewrite (bind_ok _ _ st st m) by reflexivity.
  destruct (negb (in_YEAR_RANGE y) || negb ((1 <=? m) && (m <=? 12))); reflexivity.
Qed.

Lemma _on_update_button_click_keeps st :
  month_ok st -> keeps st (_on_update_button_click pf io st).1.
Proof.
  intros Hm. rewrite _on_update_button_click_cases.
  destruct (int pf (year_var st)) as [y|]; [|apply keeps_same; [exact Hm|reflexivity..]].
  destruct (int pf (month_var st)) as [m|]; [|apply keeps_same; [exact Hm|reflexivity..]].
  destruct (negb (in_YEAR_RANGE y) || negb ((1 <=? m) && (m <=? 12))) eqn:Hcheck;
    [apply keeps_same; [exact Hm|reflexivity..]|].
  apply orb_false_iff in Hcheck as [Hyear Hmonth].
  apply negb_false_iff in Hyear, Hmonth.
  apply in_YEAR_RANGE_spec in Hyear. apply andb_true_iff in Hmonth as [H1 H2].
  apply Z.leb_le in H1, H2.
  destruct (_update_calendar_date y m st (conj H1 H2) Hm) as (st' & Hrun & Hy' & Hm' & Hi').
  unfold try_except. rewrite Hrun. cbn [fst]. unfold keeps, month_ok, year_ok.
  rewrite Hy', Hm', Hi'. auto.
Qed.

(** Every event of a session keeps the shown month in 1..12 and the
    initialisation flag, and keeps the shown year in 2020..2025. *)
Lemma handle_keeps e st : month_ok st -> keeps st (handle pf io e st).1.
Proof.
  intros Hm. destruct e; cbn [handle].
  - apply _change_month_keeps, Hm.
  - apply _change_month_keeps, Hm.
  - apply _change_year_keeps, Hm.
  - apply _change_year_keeps, Hm.
  - destruct (_save_current_data_date st Hm) as (st' & -> & Hy' & Hm' & Hi').
    apply keeps_same; assumption.
  - rewrite (bind_ok _ _ st st st) by reflexivity.
    destruct (calendar_frame st !! (row, column)) as [color|] eqn:Hcell.
    + rewrite bool_decide_eq_true_2 by eauto. cbn [when].
      rewrite (_toggle_cell_status_run io st (row, column) color Hcell).
      destruct (_save_current_data_date
                  (set_calendar_frame
                     (<[(row, column) := toggled color]> (calendar_frame st)) st) Hm)
        as (st' & -> & Hy' & Hm' & Hi').
      apply keeps_same; assumption.
    + rewrite bool_decide_eq_false_2 by (intros [? ?]; discriminate).
      apply keeps_same; [exact Hm|reflexivity..].
  - apply keeps_same; [exact Hm|reflexivity..].
  - rewrite (bind_ok _ _ st st st) by reflexivity.
    destruct (bool_decide (is_Some (habit_entries st !! row))); [|apply keeps_same; [exact Hm|reflexivity..]].
    cbn [when]. unfold _on_habit_update.
    destruct (_save_current_data_date st Hm) as (st' & Hrun & Hy' & Hm' & Hi').
    rewrite (bind_ok _ _ _ _ _ Hrun), _display_all_habits_spec.
    apply keeps_same; assumption.
  - apply keeps_same; [exact Hm|reflexivity..].
  - apply keeps_same; [exact Hm|reflexivity..].
  - apply keeps_refl, Hm.
  - rewrite _display_all_habits_spec. apply keeps_same; [exact Hm|reflexivity..].
  - unfold _on_close, root_destroy, try_except, bind.
    destruct (_save_current_data_date st Hm) as (st' & -> & Hy' & Hm' & Hi').
    apply keeps_same; assumption.
Qed.

Lemma handle_date_ok e st : date_ok st -> date_ok (handle pf io e st).1.
Proof.
  intros [Hy Hm]. destruct (handle_keeps e st Hm) as (Hm' & _ & Hy').
  split; auto.
Qed.

(** The state that [__init__] leaves for a clock month in 1..12. *)
Lemma init_spec now_year now_month fs :
  1 <= now_month <= 12 ->
  exists st,
    __init__ pf io now_year now_month fs = (st, Ok tt)
    /\ current_year st = now_year
    /\ current_month st = now_month
    /\ initialized st = true.
Proof.
  intros Hmonth. unfold __init__.
  erewrite bind_ok by (apply _update_calendar_spec; [exact Hmonth|discriminate]).
  erewrite bind_ok by reflexivity.
  rewrite _display_all_habits_spec.
  eexists. split; [reflexivity|]. repeat split.
Qed.

Lemma init_date_ok now_year now_month fs :
  2020 <= now_year <= 2025 -> 1 <= now_month <= 12 ->
  date_ok (__init__ pf io now_year now_month fs).1.
Proof.
  intros Hy Hm. destruct (init_spec now_year now_month fs Hm) as (st & -> & Hy' & Hm' & _).
  cbn [fst]. unfold date_ok, year_ok, month_ok. rewrite Hy', Hm'. lia.
Qed.

Lemma run_events_keeps es st :
  month_ok st -> keeps st (run_events pf io es st).
Proof.
  revert st. induction es as [|e es IH]; intros st Hm; cbn [run_events].
  - apply keeps_refl, Hm.
  - destruct (handle_keeps e st Hm) as (Hm' & Hi' & Hy').
    destruct (closes e); [split; [exact Hm'|]; split; [exact Hi'|exact Hy']|].
    destruct (IH _ Hm') as (Hm'' & Hi'' & Hy'').
    split; [exact Hm''|]. split; [congruence|auto].
Qed.

(** Throughout a session the month is in 1..12 and the application is
    initialised, so the save that precedes a navigation is never skipped
    after startup; the year is in 2020..2025 when the clock year is. *)
Lemma session_keeps now_year now_month fs es :
  1 <= now_month <= 12 ->
  month_ok (run_events pf io es (__init__ pf io now_year now_month fs).1)
  /\ initialized (run_events pf io es (__init__ pf io now_year now_month fs).1) = true
  /\ (2020 <= now_year <= 2025 ->
      year_ok (run_events pf io es (__init__ pf io now_year now_month fs).1)).
Proof.
  intros Hmonth.
  destruct (init_spec now_year now_month fs Hmonth) as (st0 & -> & Hy0 & Hm0 & Hi0).
  cbn [fst].
  assert (Hm : month_ok st0) by (unfold month_ok; rewrite Hm0; exact Hmonth).
  destruct (run_events_keeps es st0 Hm) as (Hm' & Hi' & Hy').
  split; [exact Hm'|]. split; [congruence|].
  intros Hyear. apply Hy'. unfold year_ok. rewrite Hy0. exact Hyear.
Qed.

End Session.

(** ** Snapshots with the two colours of a day label *)

Lemma two_colored_toggled color : two_colored (toggled color).
Proof.
  unfold two_colored, toggled. destruct (String.eqb color COLOR_DEFAULT); auto.
Qed.

Lemma two_colored_states color : two_colored color -> logged_state color = flag color.
Proof. intros [->| ->]; reflexivity. Qed.

Lemma lookup_map_Some {A B} (f : A -> B) (l : list A) (n : nat) (y : B) :
  map f l !! n = Some y -> exists x, l !! n = Some x /\ y = f x.
Proof.
  rewrite lookup_map. destruct (l !! n) as [x|]; [|discriminate].
  intros [= <-]. eauto.
Qed.

Lemma snapshot_two_colored st i j :
  frame_ok st -> 1 <= j -> two_colored (snapshot_color (snapshot st) i j).
Proof.
  intros Hframe Hj. unfold snapshot_color, snapshot.
  destruct (map _ _ !! Z.to_nat i) as [row|] eqn:Hrow; [|left; reflexivity].
  apply lookup_map_Some in Hrow as (i' & _ & ->). unfold row_data.
  replace (Z.to_nat j) with (S (Z.to_nat (j - 1))) by lia. rewrite lookup_cons_S.
  destruct (map _ _ !! Z.to_nat (j - 1)) as [cell|] eqn:Hcell; [|left; reflexivity].
  apply lookup_map_Some in Hcell as (j' & _ & ->).
  destruct (calendar_frame st !! (START_ROW_INDEX + i', j')) as [bg|] eqn:Hbg;
    unfold cell_dict; rewrite lookup_singleton_eq; cbn [default from_option id].
  - apply (Hframe _ _ Hbg).
  - left. reflexivity.
Qed.

Section WellFormed.

Variable pf : Platform.
Variable io : IOEnv.

Lemma loaded_two_colored fs year month i j :
  disk_ok fs -> 1 <= j -> two_colored (snapshot_color (loaded io fs year month) i j).
Proof.
  intros Hdisk Hj. unfold loaded.
  destruct (fs !! _get_filename year month) as [[data|]|] eqn:Hfile;
    [destruct (open_rb_fails io _)|..];
    try (left; unfold snapshot_color; destruct (Z.to_nat i); reflexivity).
  apply (Hdisk _ _ i j Hfile Hj).
Qed.

Lemma saved_disk_ok st :
  frame_ok st -> disk_ok (data_dir st) -> disk_ok (data_dir (saved io st)).
Proof.
  intros Hframe Hdisk. unfold saved.
  case_ifs; cbn [data_dir set_status_text set_data_dir]; try exact Hdisk.
  - intros filename data i j Hfile Hj.
    destruct (decide (filename = _get_filename (current_year st) (current_month st)))
      as [->|Hne].
    + rewrite lookup_insert_eq in Hfile. discriminate.
    + rewrite lookup_insert_ne in Hfile by congruence. apply (Hdisk _ _ i j Hfile Hj).
  - intros filename data i j Hfile Hj.
    destruct (decide (filename = _get_filename (current_year st) (current_month st)))
      as [->|Hne].
    + rewrite lookup_insert_eq in Hfile. injection Hfile as <-.
      apply snapshot_two_colored; assumption.
    + rewrite lookup_insert_ne in Hfile by congruence. apply (Hdisk _ _ i j Hfile Hj).
Qed.

Lemma updated_colors year month is_initial_load st :
  frame_ok st -> disk_ok (data_dir st) ->
  frame_ok (updated pf io year month is_initial_load st)
  /\ disk_ok (data_dir (updated pf io year month is_initial_load st)).
Proof.
  intros Hframe Hdisk.
  assert (Hsaved : disk_ok (data_dir (if initialized st && negb is_initial_load
                                      then saved io st else st))).
  { destruct (initialized st && negb is_initial_load);
      [apply saved_disk_ok; assumption|exact Hdisk]. }
  split; [|exact Hsaved].
  intros [r c] color Hcell. unfold updated in Hcell. cbn [calendar_frame] in Hcell.
  assert (Hrange : START_ROW_INDEX <= r < START_ROW_INDEX + MAX_HABIT_ROWS
                   /\ 1 <= c <= ndays year month).
  { eapply rendered_frame_is_Some. rewrite Hcell. eauto. }
  destruct Hrange as [Hr Hc].
  replace r with (START_ROW_INDEX + (r - START_ROW_INDEX)) in Hcell by lia.
  rewrite rendered_frame_lookup in Hcell by lia. injection Hcell as <-.
  apply loaded_two_colored; [exact Hsaved|lia].
Qed.

Lemma init_colors now_year now_month fs :
  1 <= now_month <= 12 -> disk_ok fs ->
  frame_ok (__init__ pf io now_year now_month fs).1
  /\ disk_ok (data_dir (__init__ pf io now_year now_month fs).1).
Proof.
  intros Hmonth Hdisk. unfold __init__.
  erewrite bind_ok by (apply _update_calendar_spec; [exact Hmonth|discriminate]).
  erewrite bind_ok by reflexivity.
  rewrite _display_all_habits_spec. cbn [fst].
  apply (updated_colors now_year now_month true
           (mkApp now_year now_month false (str now_year) (str now_month) "" ∅ ∅ fs [])).
  - intros w c Hcell. cbn in Hcell. rewrite lookup_empty in Hcell. discriminate.
  - exact Hdisk.
Qed.

End WellFormed.

(** The data directories and the states of the concrete sessions have the
    two colours only. *)
Lemma disk_ok_empty : disk_ok ∅.
Proof. intros filename data i j Hfile. rewrite lookup_empty in Hfile. discriminate. Qed.

Lemma garbage_disk_ok : disk_ok Demo.garbage_disk.
Proof.
  intros filename data i j Hfile. unfold Demo.garbage_disk in Hfile.
  apply lookup_singleton_Some in Hfile as [_ Hfile]. discriminate.
Qed.

Lemma old_disk_ok : disk_ok Demo.old_disk.
Proof.
  intros filename data i j Hfile Hj. unfold Demo.old_disk in Hfile.
  apply lookup_singleton_Some in Hfile as [_ [= <-]].
  unfold snapshot_color, Demo.old_snapshot.
  destruct (Z.to_nat i) as [|n]; [|left; reflexivity].
  change ([[entry_dict "Exercise" "white"; cell_dict COLOR_COMPLETED]] !! 0%nat)
    with (Some [entry_dict "Exercise" "white"; cell_dict COLOR_COMPLETED]).
  replace (Z.to_nat j) with (S (Z.to_nat (j - 1))) by lia. rewrite lookup_cons_S.
  destruct (Z.to_nat (j - 1)) as [|k]; [right|left]; reflexivity.
Qed.

Lemma may_2025_colors :
  frame_ok Demo.may_2025 /\ disk_ok (data_dir Demo.may_2025).
Proof. apply (init_colors Demo.pf Demo.io_ok 2025 5 ∅); [lia|apply disk_ok_empty]. Qed.

Lemma selection_colors (year month : string) st :
  frame_ok st /\ disk_ok (data_dir st) ->
  frame_ok (set_year_var year (set_month_var month st))
  /\ disk_ok (data_dir (set_year_var year (set_month_var month st))).
Proof. intros Hcolors. exact Hcolors. Qed.

Lemma june_2025_colors :
  frame_ok Demo.june_2025 /\ disk_ok (data_dir Demo.june_2025).
Proof. apply (init_colors Demo.pf Demo.io_ok 2025 6 Demo.old_disk); [lia|apply old_disk_ok]. Qed.

(** * The claims of the specification *)

(** ** The persistence store *)

(** C5.  [load_data] never raises and never writes: it answers the stored
    snapshot when the file of the slot exists, can be opened and
    unpickles, and the empty list (the absent result) when the file does
    not exist, cannot be opened, or does not unpickle. *)
Theorem load_data_contract io fs year month :
  load_data io year month fs
  = (fs, Ok match fs !! _get_filename year month with
            | Some (Pickle data) =>
                if open_rb_fails io (_get_filename year month) then [] else data
            | Some Garbage => []
            | None => []
            end).
Proof.
  rewrite load_data_loaded. unfold loaded.
  destruct (fs !! _get_filename year month) as [[data|]|]; reflexivity.
Qed.

(** C10.  [save_data] with an empty data list answers [False] and leaves
    the data directory, hence the slot, as it was. *)
Theorem save_data_empty io fs year month :
  save_data io year month [] fs = (fs, Ok false).
Proof. reflexivity. Qed.

(** C6, as the specification states it, fails: when the write fails after
    the file was opened, the slot holds neither the new snapshot nor what
    it held before. *)
Lemma save_data_not_atomic :
  ~ atomic_overwrite Demo.io_disk_full 2025 5 Demo.new_snapshot Demo.old_disk.
Proof.
  unfold atomic_overwrite. rewrite save_data_cases by discriminate.
  cbn [Demo.io_disk_full open_wb_fails dump_fails fst].
  unfold Demo.old_disk. rewrite lookup_insert_eq, lookup_singleton_eq.
  intros [H|H]; discriminate H.
Qed.

(** C6, amended.  [save_data] with a non-empty snapshot never raises.
    When both the open and the write succeed it answers [True] and the
    slot holds the snapshot, whatever it held before; when the open fails
    it answers [False] and the data directory is as before; when the write
    fails it answers [False] and the slot is left truncated.  The caller
    [_save_current_data] does not raise either: it keeps the shown year
    and month, the entries and the day labels, and on a failure puts the
    save-error text in the status bar. *)
Theorem save_contract io st year month data :
  data <> [] -> initialized st = true -> month_ok st ->
  save_data io year month data (data_dir st)
  = (if open_wb_fails io (_get_filename year month) then (data_dir st, Ok false)
     else if dump_fails io (_get_filename year month) then
       (<[_get_filename year month := Garbage]> (data_dir st), Ok false)
     else (<[_get_filename year month := Pickle data]> (data_dir st), Ok true))
  /\ exists st',
       _save_current_data io st = (st', Ok tt)
       /\ current_year st' = current_year st
       /\ current_month st' = current_month st
       /\ habit_entries st' = habit_entries st
       /\ calendar_frame st' = calendar_frame st
       /\ (open_wb_fails io (_get_filename (current_year st) (current_month st))
           || dump_fails io (_get_filename (current_year st) (current_month st)) = true ->
           status_text st' = STATUS_SAVE_ERROR).
Proof.
  intros Hdata Hinit Hm. split; [apply save_data_cases, Hdata|].
  exists (saved io st). split; [apply _save_current_data_spec; assumption|].
  unfold saved.
  destruct (open_wb_fails io _); [repeat split|].
  destruct (dump_fails io _); repeat split. discriminate.
Qed.

Lemma save_contract_witness :
  exists st',
    _save_current_data Demo.io_disk_full Demo.may_2025 = (st', Ok tt)
    /\ calendar_frame st' = calendar_frame Demo.may_2025
    /\ status_text st' = STATUS_SAVE_ERROR.
Proof.
  destruct (save_contract Demo.io_disk_full Demo.may_2025 2025 5 Demo.new_snapshot)
    as [_ (st' & Hrun & _ & _ & _ & Hframe & Hstatus)].
  - discriminate.
  - vm_compute. reflexivity.
  - unfold month_ok. vm_compute. split; discriminate.
  - exists st'. split; [exact Hrun|]. split; [exact Hframe|]. apply Hstatus. reflexivity.
Defined.

(** ** The calendar state model *)

(** C1.  When the open, the write and the read of the slot succeed, saving
    the snapshot collected from the shown grid under any key and loading
    that key again answers the very same snapshot, and rendering it for
    the shown month gives widgets that stand for the same month grid: the
    same habit names and the same colours, hence flags, for every day. *)
Theorem save_load_round_trip pf io st year month s0 :
  month_ok st ->
  open_wb_fails io (_get_filename year month) = false ->
  dump_fails io (_get_filename year month) = false ->
  open_rb_fails io (_get_filename year month) = false ->
  current_year s0 = current_year st ->
  current_month s0 = current_month st ->
  exists data fs' s1,
    _collect_current_data st = (st, Ok data)
    /\ save_data io year month data (data_dir st) = (fs', Ok true)
    /\ load_data io year month fs' = (fs', Ok data)
    /\ _render_calendar_body pf io (Some data) s0 = (s1, Ok tt)
    /\ month_grid s1 = month_grid st
    /\ forall i, 0 <= i < MAX_HABIT_ROWS ->
         habit_name s1 (START_ROW_INDEX + i) = habit_name st (START_ROW_INDEX + i)
         /\ forall j, 1 <= j <= ndays (current_year st) (current_month st) ->
              cell_color s1 (START_ROW_INDEX + i) j = cell_color st (START_ROW_INDEX + i) j.
Proof.
  intros Hm Hopen Hdump Hread Hy0 Hm0.
  assert (Hm' : month_ok s0) by (unfold month_ok in *; rewrite Hm0; exact Hm).
  exists (snapshot st), (<[_get_filename year month := Pickle (snapshot st)]> (data_dir st)).
  eexists. split; [apply _collect_current_data_spec, Hm|].
  split.
  { rewrite save_data_cases by apply snapshot_nonempty. rewrite Hopen, Hdump. reflexivity. }
  split.
  { rewrite load_data_loaded. unfold loaded. rewrite lookup_insert_eq, Hread. reflexivity. }
  split; [apply _render_calendar_body_spec, Hm'|].
  assert (Hname : forall i, 0 <= i < MAX_HABIT_ROWS ->
    habit_name
      (set_calendar_frame
         (rendered_frame (snapshot st) (ndays (current_year s0) (current_month s0))
            (calendar_frame s0))
         (set_habit_entries (rendered_entries pf (snapshot st) (habit_entries s0)) s0))
      (START_ROW_INDEX + i) = habit_name st (START_ROW_INDEX + i)).
  { intros i Hi. unfold habit_name at 1. cbn [habit_entries set_calendar_frame set_habit_entries].
    rewrite rendered_entries_lookup by exact Hi. cbn [entry_get].
    apply snapshot_name_snapshot, Hi. }
  assert (Hcolor : forall i j, 0 <= i < MAX_HABIT_ROWS ->
    1 <= j <= ndays (current_year st) (current_month st) ->
    cell_color
      (set_calendar_frame
         (rendered_frame (snapshot st) (ndays (current_year s0) (current_month s0))
            (calendar_frame s0))
         (set_habit_entries (rendered_entries pf (snapshot st) (habit_entries s0)) s0))
      (START_ROW_INDEX + i) j = cell_color st (START_ROW_INDEX + i) j).
  { intros i j Hi Hj. unfold cell_color at 1. cbn [calendar_frame set_calendar_frame].
    rewrite Hy0, Hm0, rendered_frame_lookup by assumption.
    apply snapshot_color_snapshot; assumption. }
  split.
  - apply month_grid_ext; [exact Hy0|exact Hm0|exact Hname|exact Hcolor].
  - intros i Hi. split; [apply Hname, Hi|]. intros j Hj. apply Hcolor; assumption.
Qed.

Lemma save_load_round_trip_witness :
  exists data fs' s1,
    save_data Demo.io_ok 2025 5 data (data_dir Demo.may_2025) = (fs', Ok true)
    /\ load_data Demo.io_ok 2025 5 fs' = (fs', Ok data)
    /\ _render_calendar_body Demo.pf Demo.io_ok (Some data) Demo.may_2025 = (s1, Ok tt)
    /\ month_grid s1 = month_grid Demo.may_2025.
Proof.
  destruct (save_load_round_trip Demo.pf Demo.io_ok Demo.may_2025 2025 5 Demo.may_2025)
    as (data & fs' & s1 & _ & Hsave & Hload & Hrender & Hgrid & _).
  - unfold month_ok. vm_compute. split; discriminate.
  - reflexivity.
  - reflexivity.
  - reflexivity.
  - reflexivity.
  - reflexivity.
  - exists data, fs', s1. repeat split; assumption.
Defined.

(** C2.  For a year in 2020..2025 and a month in 1..12, in a session
    whose day labels and whose stored snapshots have the two colours of
    the application, [_update_calendar] returns with a grid of exactly
    ten habit rows, the grid rows 2..11, each with an entry and with day
    labels in exactly the columns 1..[ndays year month]; the month grid
    that the widgets stand for has ten rows of [ndays year month] flags,
    and the labels and the snapshots have the two colours again.  Nothing
    here depends on the names the entries hold. *)
Theorem update_calendar_shape pf io st year month is_initial_load :
  2020 <= year <= 2025 -> 1 <= month <= 12 -> month_ok st ->
  frame_ok st -> disk_ok (data_dir st) ->
  exists st',
    _update_calendar pf io year month is_initial_load st = (st', Ok tt)
    /\ size (habit_entries st') = 10%nat
    /\ (forall r, is_Some (habit_entries st' !! r)
                  <-> START_ROW_INDEX <= r < START_ROW_INDEX + MAX_HABIT_ROWS)
    /\ (forall r c, is_Some (calendar_frame st' !! (r, c))
                    <-> START_ROW_INDEX <= r < START_ROW_INDEX + MAX_HABIT_ROWS
                        /\ 1 <= c <= ndays year month)
    /\ length (rows (month_grid st')) = 10%nat
    /\ Forall (fun row => len (dayFlags row) = ndays year month) (rows (month_grid st'))
    /\ frame_ok st'
    /\ disk_ok (data_dir st').
Proof.
  intros _ Hmonth Hm Hframe Hdisk.
  exists (updated pf io year month is_initial_load st).
  split; [apply _update_calendar_spec; auto|].
  split; [apply rendered_entries_size|].
  split; [intros r; apply rendered_entries_is_Some|].
  split; [intros r c; apply rendered_frame_is_Some|].
  destruct (month_grid_rows (updated pf io year month is_initial_load st)) as [Hrows Hflags].
  split; [exact Hrows|]. split; [exact Hflags|].
  apply updated_colors; assumption.
Qed.

Lemma update_calendar_shape_witness :
  exists st',
    _update_calendar Demo.pf Demo.io_ok 2025 5 false Demo.june_2025 = (st', Ok tt)
    /\ size (habit_entries st') = 10%nat
    /\ Forall (fun row => len (dayFlags row) = 31) (rows (month_grid st'))
    /\ frame_ok st'.
Proof.
  destruct (update_calendar_shape Demo.pf Demo.io_ok Demo.june_2025 2025 5 false)
    as (st' & Hrun & Hsize & _ & _ & _ & Hflags & Hframe & _).
  - lia.
  - lia.
  - unfold month_ok. vm_compute. split; discriminate.
  - apply june_2025_colors.
  - apply june_2025_colors.
  - exists st'. repeat split; assumption.
Defined.

(** C7.  In a session whose day labels and whose stored snapshots have
    the two colours of the application, a navigation to (year, month)
    with a month in 1..12 first runs [_save_current_data] on the grid that
    is shown, unless the application is not yet initialised or this is the
    initial load, in which case nothing is saved.  When the open and the
    write succeed, the slot of the month that is left then holds the
    snapshot just collected, whose names and colours are those of the
    grid that was shown; no other file is touched.  The navigation then
    reads the slot of (year, month) from the data directory that the save
    left: what it reads is the stored snapshot when the file exists, opens
    and unpickles, and the empty list otherwise.  It builds the widgets of
    the ten rows from what was read: for each row and each day the value
    of the snapshot where it has one and the default (empty name, default
    colour, which is the flag [false]) where the row, the day or the key
    is missing. *)
Theorem update_calendar_contract pf io st year month is_initial_load :
  1 <= month <= 12 -> month_ok st ->
  frame_ok st -> disk_ok (data_dir st) ->
  exists st_saved data st',
    (initialized st = true -> is_initial_load = false ->
       _save_current_data io st = (st_saved, Ok tt))
    /\ (initialized st = false \/ is_initial_load = true -> st_saved = st)
    /\ load_data io year month (data_dir st_saved) = (data_dir st_saved, Ok data)
    /\ _update_calendar pf io year month is_initial_load st = (st', Ok tt)
    /\ current_year st' = year
    /\ current_month st' = month
    /\ data_dir st' = data_dir st_saved
    /\ (forall i, 0 <= i < MAX_HABIT_ROWS ->
          habit_name st' (START_ROW_INDEX + i) = snapshot_name data i
          /\ forall j, 1 <= j <= ndays year month ->
               cell_color st' (START_ROW_INDEX + i) j = snapshot_color data i j)
    /\ flag COLOR_DEFAULT = false
    /\ (initialized st = true -> is_initial_load = false ->
        open_wb_fails io (_get_filename (current_year st) (current_month st)) = false ->
        dump_fails io (_get_filename (current_year st) (current_month st)) = false ->
        exists shown,
          _collect_current_data st = (st, Ok shown)
          /\ data_dir st_saved !! _get_filename (current_year st) (current_month st)
             = Some (Pickle shown)
          /\ forall i, 0 <= i < MAX_HABIT_ROWS ->
               snapshot_name shown i = habit_name st (START_ROW_INDEX + i)
               /\ forall j, 1 <= j <= ndays (current_year st) (current_month st) ->
                    snapshot_color shown i j = cell_color st (START_ROW_INDEX + i) j)
    /\ (forall filename,
          filename <> _get_filename (current_year st) (current_month st) ->
          data_dir st_saved !! filename = data_dir st !! filename)
    /\ data = match data_dir st_saved !! _get_filename year month with
              | Some (Pickle stored) =>
                  if open_rb_fails io (_get_filename year month) then [] else stored
              | Some Garbage => []
              | None => []
              end
    /\ frame_ok st'
    /\ disk_ok (data_dir st').
Proof.
  intros Hmonth Hm Hframe Hdisk.
  exists (if initialized st && negb is_initial_load then saved io st else st).
  exists (loaded io
            (data_dir (if initialized st && negb is_initial_load then saved io st else st))
            year month).
  exists (updated pf io year month is_initial_load st).
  split.
  { intros Hinit Hload. rewrite Hinit, Hload. cbn [andb negb].
    apply _save_current_data_spec; assumption. }
  split.
  { intros [Hinit|Hload]; [rewrite Hinit|rewrite Hload, andb_false_r]; reflexivity. }
  split; [apply load_data_loaded|].
  split; [apply _update_calendar_spec; auto|].
  do 3 (split; [reflexivity|]).
  split.
  { intros i Hi. split.
    - unfold habit_name, updated. cbn [habit_entries].
      rewrite rendered_entries_lookup by exact Hi. reflexivity.
    - intros j Hj. unfold cell_color, updated. cbn [calendar_frame].
      rewrite rendered_frame_lookup by assumption. reflexivity. }
  split; [reflexivity|].
  split.
  { intros Hinit Hload Hopen Hdump. rewrite Hinit, Hload. cbn [andb negb].
    exists (snapshot st). split; [apply _collect_current_data_spec, Hm|].
    split.
    - unfold saved. rewrite Hopen, Hdump. cbn [data_dir set_status_text set_data_dir].
      apply lookup_insert_eq.
    - intros i Hi. split; [apply snapshot_name_snapshot, Hi|].
      intros j Hj. apply snapshot_color_snapshot; assumption. }
  split.
  { intros filename Hne.
    destruct (initialized st && negb is_initial_load); [|reflexivity].
    unfold saved. case_ifs; cbn [data_dir set_status_text set_data_dir];
      rewrite ?lookup_insert_ne by congruence; reflexivity. }
  split.
  { unfold loaded.
    destruct (_ !! _get_filename year month) as [[stored|]|]; reflexivity. }
  apply updated_colors; assumption.
Qed.

Lemma update_calendar_contract_witness :
  exists st_saved data st',
    _save_current_data Demo.io_ok Demo.june_2025 = (st_saved, Ok tt)
    /\ load_data Demo.io_ok 2025 5 (data_dir st_saved) = (data_dir st_saved, Ok data)
    /\ data = Demo.old_snapshot
    /\ _update_calendar Demo.pf Demo.io_ok 2025 5 false Demo.june_2025 = (st', Ok tt)
    /\ habit_name st' (START_ROW_INDEX + 0) = "Exercise"
    /\ cell_color st' (START_ROW_INDEX + 0) 1 = COLOR_COMPLETED
    /\ exists shown,
         _collect_current_data Demo.june_2025 = (Demo.june_2025, Ok shown)
         /\ data_dir st_saved
              !! _get_filename (current_year Demo.june_2025) (current_month Demo.june_2025)
            = Some (Pickle shown).
Proof.
  destruct (update_calendar_contract Demo.pf Demo.io_ok Demo.june_2025 2025 5 false)
    as (st_saved & data & st' & Hsave & _ & Hload & Hrun & _ & _ & _ & Hwidgets & _
        & Hslot & Hother & Hdata & _).
  - lia.
  - unfold month_ok. vm_compute. split; discriminate.
  - apply june_2025_colors.
  - apply june_2025_colors.
  - assert (Hstored : data = Demo.old_snapshot).
    { rewrite Hdata, (Hother (_get_filename 2025 5)) by (vm_compute; discriminate).
      vm_compute. reflexivity. }
    destruct (Hwidgets 0) as [Hname Hcolors]; [vm_compute; split; [discriminate|reflexivity]|].
    destruct (Hslot eq_refl eq_refl eq_refl eq_refl) as (shown & Hcollect & Hshown & _).
    exists st_saved, data, st'.
    split; [apply Hsave; reflexivity|]. split; [exact Hload|]. split; [exact Hstored|].
    split; [exact Hrun|].
    split; [rewrite Hname, Hstored; vm_compute; reflexivity|].
    split; [rewrite (Hcolors 1), Hstored by (vm_compute; split; discriminate);
            vm_compute; reflexivity|].
    exists shown. split; [exact Hcollect|exact Hshown].
Defined.

(** The scenarios of the specification.  On a fresh data directory May
    2025 shows ten rows with an empty name and 31 flags, all false. *)
Example fresh_may_2025 :
  month_grid Demo.may_2025 = mkGrid 2025 5 (replicate 10 (mkRow "" (replicate 31 false))).
Proof. vm_compute. reflexivity. Qed.

(** After naming the first habit, marking its first day, moving to June
    and back to May, the first row has its name and its first day marked. *)
Example rename_toggle_navigate :
  let run e st := (handle Demo.pf Demo.io_ok e st).1 in
  let st := run Key_Left
              (run Key_Right
                 (run (Button_1 2 1)
                    (run (FocusOut 2) (run (Typed 2 "Exercise") Demo.may_2025)))) in
  current_month st = 5
  /\ habit_name st 2 = "Exercise"
  /\ flag (cell_color st 2 1) = true
  /\ flag (cell_color st 2 2) = false.
Proof. vm_compute. repeat split. Qed.

(** C3, as the specification states it, fails: a click outside the ten
    rows reaches no handler, so nothing changes and no error is reported,
    neither by raising nor in the status bar. *)
Lemma click_out_of_range_silent :
  handle Demo.pf Demo.io_ok (Button_1 12 1) Demo.may_2025 = (Demo.may_2025, Ok tt)
  /\ error_reported (handle Demo.pf Demo.io_ok (Button_1 12 1) Demo.may_2025) = false.
Proof. split; vm_compute; reflexivity. Qed.

(** C3, amended.  A click on an existing day label flips its flag: the
    label gets the other colour, the flag of the new colour is the
    negation of the old flag and is the state that the handler logs (the
    handler itself returns nothing).  In an initialised session with a
    month in 1..12 the click then saves the shown grid and returns; when
    the open and the write succeed, the slot of the shown month holds the
    snapshot of the grid with the flipped flag.  A click where there is no
    day label changes nothing and reports nothing. *)
Theorem toggle_cell_contract pf io st row column color :
  calendar_frame st !! (row, column) = Some color ->
  initialized st = true -> month_ok st ->
  exists st',
    handle pf io (Button_1 row column) st = (st', Ok tt)
    /\ calendar_frame st' = <[(row, column) := toggled color]> (calendar_frame st)
    /\ flag (cell_color st' row column) = negb (flag color)
    /\ logged_state (toggled color) = flag (cell_color st' row column)
    /\ habit_entries st' = habit_entries st
    /\ st' = saved io (set_calendar_frame
                         (<[(row, column) := toggled color]> (calendar_frame st)) st)
    /\ (open_wb_fails io (_get_filename (current_year st) (current_month st)) = false ->
        dump_fails io (_get_filename (current_year st) (current_month st)) = false ->
        data_dir st' !! _get_filename (current_year st) (current_month st)
        = Some (Pickle (snapshot st')))
    /\ (forall r c, calendar_frame st !! (r, c) = None ->
          handle pf io (Button_1 r c) st = (st, Ok tt)).
Proof.
  intros Hcell Hinit Hm.
  set (st1 := set_calendar_frame (<[(row, column) := toggled color]> (calendar_frame st)) st).
  assert (Hframe : calendar_frame (saved io st1)
                   = <[(row, column) := toggled color]> (calendar_frame st)).
  { unfold saved.
    case_ifs; reflexivity. }
  assert (Hcolor : cell_color (saved io st1) row column = toggled color).
  { unfold cell_color. rewrite Hframe, lookup_insert_eq. reflexivity. }
  exists (saved io st1).
  split; [rewrite (Button_1_run pf io st row column color Hcell);
          apply _save_current_data_spec; assumption|].
  split; [exact Hframe|].
  split; [rewrite Hcolor; apply flag_toggled|].
  split; [rewrite Hcolor; apply logged_state_toggled|].
  split.
  { unfold saved.
    case_ifs; reflexivity. }
  split; [reflexivity|].
  split.
  - intros Hopen Hdump. unfold saved. subst st1.
    cbn [current_year current_month set_calendar_frame].
    rewrite Hopen, Hdump. cbn [data_dir set_status_text set_data_dir].
    rewrite lookup_insert_eq. reflexivity.
  - intros r c Hnone. apply Button_1_outside, Hnone.
Qed.

Lemma toggle_cell_contract_witness :
  exists st',
    handle Demo.pf Demo.io_ok (Button_1 2 1) Demo.may_2025 = (st', Ok tt)
    /\ flag (cell_color st' 2 1) = true
    /\ data_dir st' !! _get_filename 2025 5 = Some (Pickle (snapshot st')).
Proof.
  destruct (toggle_cell_contract Demo.pf Demo.io_ok Demo.may_2025 2 1 COLOR_DEFAULT)
    as (st' & Hrun & _ & Hflag & _ & _ & _ & Hdisk & _).
  - vm_compute. reflexivity.
  - vm_compute. reflexivity.
  - unfold month_ok. vm_compute. split; discriminate.
  - exists st'. split; [exact Hrun|]. split; [exact Hflag|].
    apply Hdisk; reflexivity.
Defined.

(** C8.  Two clicks in a row on the same day label give it back the flag
    it had, whatever the file system answers to the two saves in between;
    a label that had one of the two colours of the application has that
    colour again. *)
Theorem toggle_twice pf io1 io2 st row column color :
  calendar_frame st !! (row, column) = Some color ->
  let st1 := (handle pf io1 (Button_1 row column) st).1 in
  let st2 := (handle pf io2 (Button_1 row column) st1).1 in
  calendar_frame st2 !! (row, column) = Some (toggled (toggled color))
  /\ flag (cell_color st1 row column) = negb (flag color)
  /\ flag (cell_color st2 row column) = flag color
  /\ (color = COLOR_DEFAULT \/ color = COLOR_COMPLETED ->
      cell_color st2 row column = color).
Proof.
  intros Hcell st1 st2.
  assert (H1 : calendar_frame st1 !! (row, column) = Some (toggled color)).
  { subst st1. rewrite (Button_1_run pf io1 st row column color Hcell).
    rewrite _save_current_data_frame. cbn [calendar_frame set_calendar_frame].
    apply lookup_insert_eq. }
  assert (H2 : calendar_frame st2 !! (row, column) = Some (toggled (toggled color))).
  { subst st2. rewrite (Button_1_run pf io2 st1 row column (toggled color) H1).
    rewrite _save_current_data_frame. cbn [calendar_frame set_calendar_frame].
    apply lookup_insert_eq. }
  split; [exact H2|]. unfold cell_color. rewrite H1, H2.
  split; [apply flag_toggled|].
  split; [rewrite !flag_toggled; apply negb_involutive|].
  apply toggled_toggled.
Qed.

Lemma toggle_twice_witness :
  flag (cell_color
          (handle Demo.pf Demo.io_disk_full (Button_1 2 1)
             (handle Demo.pf Demo.io_ok (Button_1 2 1) Demo.may_2025).1).1 2 1)
  = flag COLOR_DEFAULT.
Proof.
  destruct (toggle_twice Demo.pf Demo.io_ok Demo.io_disk_full Demo.may_2025 2 1 COLOR_DEFAULT)
    as (_ & _ & Hflag & _).
  - vm_compute. reflexivity.
  - exact Hflag.
Defined.




(** C9 fails at startup: [__init__] shows the year and month of the clock
    without checking the year against [YEAR_RANGE].  Started in November
    2026 the application shows the year 2026, which [YEAR_RANGE] does not
    contain, and the arrow keys that change the month do nothing there. *)
Theorem init_2026_out_of_range pf io fs :
  exists st,
    __init__ pf io 2026 11 fs = (st, Ok tt)
    /\ current_year st = 2026
    /\ in_YEAR_RANGE (current_year st) = false
    /\ ~ date_ok st
    /\ handle pf io Key_Left st = (st, Ok tt)
    /\ handle pf io Key_Right st = (st, Ok tt).
Proof.
  destruct (init_spec pf io 2026 11 fs) as (st & Hrun & Hy & Hm & _); [lia|].
  exists st. split; [exact Hrun|]. split; [exact Hy|].
  split; [rewrite Hy; reflexivity|].
  split; [unfold date_ok, year_ok; rewrite Hy; lia|].
  cbn [handle]. unfold _change_month, bind, get. rewrite Hy, Hm. split; reflexivity.
Qed.

(** * Further properties of the code *)

(** ** File names *)

Lemma pretty_N_char_not c :
  c = "_"%char \/ c = "."%char -> forall d, pretty_N_char d <> c.
Proof.
  intros [->| ->] d; unfold pretty_N_char;
    repeat (discriminate || case_match).
Qed.

Lemma pretty_N_go_occurs c x s :
  (forall d, pretty_N_char d <> c) ->
  occurs c (pretty_N_go x s) = occurs c s.
Proof.
  intros Hc. revert s. induction (N.lt_wf_0 x) as [x _ IH]; intros s.
  destruct (decide (x = 0)%N) as [->|Hx]; [reflexivity|].
  rewrite pretty_N_go_step by lia. rewrite IH by (apply N.div_lt; lia).
  cbn [occurs]. destruct (Ascii.eqb_spec (pretty_N_char (x `mod` 10)) c) as [Heq|_];
    [destruct (Hc _ Heq)|reflexivity].
Qed.

Lemma pretty_N_occurs c (x : N) :
  (forall d, pretty_N_char d <> c) -> occurs c (pretty x) = false.
Proof.
  intros Hc. unfold pretty, pretty_N. case_decide.
  - cbn [occurs]. destruct (Ascii.eqb_spec "0"%char c) as [Heq|_]; [|reflexivity].
    destruct (Hc 0%N Heq).
  - apply pretty_N_go_occurs, Hc.
Qed.

(** The decimal numeral of an integer holds neither an underscore nor a dot. *)
Lemma str_occurs c n :
  c = "_"%char \/ c = "."%char -> occurs c (str n) = false.
Proof.
  intros Hc. pose proof (pretty_N_char_not c Hc) as Hd.
  unfold str, pretty, pretty_Z. destruct n as [|p|p].
  - destruct Hc as [->| ->]; reflexivity.
  - apply (pretty_N_occurs c (N.pos p) Hd).
  - change (occurs c (String "-" (pretty (N.pos p))) = false). cbn [occurs].
    rewrite (pretty_N_occurs c (N.pos p) Hd).
    destruct Hc as [->| ->]; reflexivity.
Qed.

(** Two strings cut at the first occurrence of a separator agree part by part. *)
Lemma app_separator_inj c s1 s2 t1 t2 :
  occurs c s1 = false -> occurs c s2 = false ->
  s1 +:+ String c t1 = s2 +:+ String c t2 -> s1 = s2 /\ t1 = t2.
Proof.
  revert s2. induction s1 as [|a s1 IH]; intros [|b s2] H1 H2 Heq; cbn in *.
  - injection Heq as ->. auto.
  - injection Heq as <- _. rewrite Ascii.eqb_refl in H2. discriminate.
  - injection Heq as -> _. rewrite Ascii.eqb_refl in H1. discriminate.
  - injection Heq as -> Heq.
    apply orb_false_iff in H1 as [_ H1]. apply orb_false_iff in H2 as [_ H2].
    destruct (IH s2 H1 H2 Heq) as [-> ->]. auto.
Qed.

Lemma _get_filename_inj year month year' month' :
  _get_filename year month = _get_filename year' month' ->
  year = year' /\ month = month'.
Proof.
  unfold _get_filename. intros Heq.
  apply (inj (String.app "data/habits_")) in Heq.
  change ("_" +:+ ?s) with (String "_" s) in Heq.
  apply app_separator_inj in Heq as [Hy Hrest]; [|apply str_occurs; auto..].
  change ".pkl" with (String "." "pkl") in Hrest.
  apply app_separator_inj in Hrest as [Hm _]; [|apply str_occurs; auto..].
  split; [apply (inj pretty), Hy|apply (inj pretty), Hm].
Qed.

(** X1.  The file name of a slot determines its key: two (year, month)
    pairs with the same file name are the same pair, so different months
    never share a file. *)
Theorem get_filename_injective year month year' month' :
  _get_filename year month = _get_filename year' month' <->
  year = year' /\ month = month'.
Proof.
  split; [apply _get_filename_inj|]. intros [-> ->]. reflexivity.
Qed.

(** ** Slots are independent *)

Lemma save_data_other_file io year month data fs filename :
  filename <> _get_filename year month ->
  (save_data io year month data fs).1 !! filename = fs !! filename.
Proof.
  intros Hne. destruct data as [|row data]; [reflexivity|].
  rewrite save_data_cases by discriminate.
  case_ifs; cbn [fst]; rewrite ?lookup_insert_ne by congruence; reflexivity.
Qed.

(** X2.  Saving under one key never changes what loading another key
    answers, whether the save succeeds or fails and whatever is saved. *)
Theorem save_data_other_slot io io' year month year' month' data fs :
  (year, month) <> (year', month') ->
  (load_data io' year' month' (save_data io year month data fs).1).2
  = (load_data io' year' month' fs).2.
Proof.
  intros Hne. rewrite !load_data_loaded. cbn [snd]. unfold loaded.
  rewrite save_data_other_file; [reflexivity|].
  intros Heq. apply _get_filename_inj in Heq as [-> ->]. congruence.
Qed.

Lemma save_data_other_slot_witness :
  (load_data Demo.io_ok 2025 5
     (save_data Demo.io_disk_full 2025 6 Demo.new_snapshot Demo.old_disk).1).2
  = Ok Demo.old_snapshot.
Proof.
  rewrite (save_data_other_slot Demo.io_disk_full Demo.io_ok 2025 6 2025 5).
  - vm_compute. reflexivity.
  - discriminate.
Defined.

(** ** What each handler computes in a state with a month in 1..12 *)

Section Equations.

Variable pf : Platform.
Variable io : IOEnv.

Lemma _save_current_data_eq st :
  month_ok st ->
  _save_current_data io st = (if initialized st then saved io st else st, Ok tt).
Proof.
  intros Hm. destruct (initialized st) eqn:Hinit.
  - apply _save_current_data_spec; assumption.
  - apply _save_current_data_uninitialized, Hinit.
Qed.

Lemma _change_month_eq delta st :
  month_ok st ->
  _change_month pf io delta st
  = let target :=
      if current_month st + delta <? 1 then (12, current_year st - 1)
      else if 12 <? current_month st + delta then (1, current_year st + 1)
      else (current_month st + delta, current_year st) in
    if in_YEAR_RANGE target.2 then
      (updated pf io target.2 target.1 false
         (set_year_var (str target.2) (set_month_var (str target.1) st)), Ok tt)
    else (st, Ok tt).
Proof.
  intros Hm. unfold _change_month.
  rewrite (bind_ok _ _ st st st) by reflexivity.
  set (nm := current_month st + delta).
  assert (Hcases :
    exists ny nm',
      (if nm <? 1 then (12, current_year st - 1)
       else if 12 <? nm then (1, current_year st + 1)
       else (nm, current_year st)) = (nm', ny)
      /\ 1 <= nm' <= 12).
  { destruct (Z.ltb_spec nm 1); [eexists _, _; split; [reflexivity|lia]|].
    destruct (Z.ltb_spec 12 nm); eexists _, _; (split; [reflexivity|lia]). }
  destruct Hcases as (ny & nm' & -> & Hnm'). cbn [fst snd].
  destruct (in_YEAR_RANGE ny); cbn [negb]; [|reflexivity].
  do 2 (erewrite bind_ok by reflexivity).
  apply _update_calendar_spec; [exact Hnm'|intros _; exact Hm].
Qed.

Lemma _change_month_target delta st :
  month_ok st ->
  1 <= (if current_month st + delta <? 1 then (12, current_year st - 1)
        else if 12 <? current_month st + delta then (1, current_year st + 1)
        else (current_month st + delta, current_year st)).1 <= 12.
Proof.
  intros Hm. destruct (Z.ltb_spec (current_month st + delta) 1); [cbn; lia|].
  destruct (Z.ltb_spec 12 (current_month st + delta)); cbn; lia.
Qed.

Lemma _change_year_eq delta st :
  month_ok st ->
  _change_year pf io delta st
  = if in_YEAR_RANGE (current_year st + delta) then
      (updated pf io (current_year st + delta) (current_month st) false
         (set_year_var (str (current_year st + delta)) st), Ok tt)
    else (st, Ok tt).
Proof.
  intros Hm. unfold _change_year.
  rewrite (bind_ok _ _ st st st) by reflexivity.
  destruct (in_YEAR_RANGE (current_year st + delta)); cbn [when]; [|reflexivity].
  erewrite bind_ok by reflexivity.
  apply _update_calendar_spec; [exact Hm|intros _; exact Hm].
Qed.

Lemma _on_update_button_click_eq st :
  month_ok st ->
  _on_update_button_click pf io st
  = match int pf (year_var st), int pf (month_var st) with
    | Some y, Some m =>
        if negb (in_YEAR_RANGE y) || negb ((1 <=? m) && (m <=? 12)) then
          (set_status_text STATUS_INVALID_DATE st, Ok tt)
        else (updated pf io y m false st, Ok tt)
    | _, _ => (set_status_text STATUS_INVALID_INPUT st, Ok tt)
    end.
Proof.
  intros Hm. rewrite _on_update_button_click_cases.
  destruct (int pf (year_var st)) as [y|]; [|reflexivity].
  destruct (int pf (month_var st)) as [m|]; [|reflexivity].
  destruct (negb (in_YEAR_RANGE y) || negb ((1 <=? m) && (m <=? 12))) eqn:Hcheck;
    [reflexivity|].
  apply orb_false_iff in Hcheck as [_ Hmonth]. apply negb_false_iff in Hmonth.
  apply andb_true_iff in Hmonth as [H1 H2]. apply Z.leb_le in H1, H2.
  unfold try_except.
  rewrite _update_calendar_spec; [reflexivity|lia|intros _; exact Hm].
Qed.

(** A rule for all handlers at once.  [Q] holds before the event and is
    kept by what a handler does to the selectors, the entries and a
    clicked day label; [R] is what is wanted afterwards and is kept by a
    change of the status bar and by the destruction of the widgets.  No
    handler raises. *)
Lemma handle_cases (Q R : App -> Prop) :
  (forall s x, Q s -> Q (set_year_var x s)) ->
  (forall s x, Q s -> Q (set_month_var x s)) ->
  (forall s entries, Q s -> Q (set_habit_entries entries s)) ->
  (forall s widget color,
     Q s -> calendar_frame s !! widget = Some color ->
     Q (set_calendar_frame (<[widget := toggled color]> (calendar_frame s)) s)) ->
  (forall s, Q s -> R s) ->
  (forall s x, R s -> R (set_status_text x s)) ->
  (forall s, R s -> R (set_calendar_frame ∅ (set_habit_entries ∅ s))) ->
  (forall s, Q s -> month_ok s -> initialized s = true -> R (saved io s)) ->
  (forall s y m, Q s -> month_ok s -> 1 <= m <= 12 -> R (updated pf io y m false s)) ->
  forall e st, month_ok st -> Q st ->
  exists st', handle pf io e st = (st', Ok tt) /\ R st'.
Proof.
  intros Qy Qm Qe Qt QR Rs Rd Rsaved Rupd e st Hm HQ.
  assert (Hsave : forall s, Q s -> month_ok s ->
            exists s', _save_current_data io s = (s', Ok tt) /\ R s').
  { intros s Hs Hms. rewrite _save_current_data_eq by exact Hms.
    eexists. split; [reflexivity|].
    destruct (initialized s) eqn:Hi; [apply Rsaved; assumption|apply QR, Hs]. }
  destruct e.
  - cbn [handle]. rewrite _change_month_eq by exact Hm. cbv zeta.
    pose proof (_change_month_target (-1) st Hm) as Htarget.
    destruct (in_YEAR_RANGE _); eexists; (split; [reflexivity|]); [|apply QR, HQ].
    apply Rupd; [apply Qy, Qm, HQ|exact Hm|exact Htarget].
  - cbn [handle]. rewrite _change_month_eq by exact Hm. cbv zeta.
    pose proof (_change_month_target 1 st Hm) as Htarget.
    destruct (in_YEAR_RANGE _); eexists; (split; [reflexivity|]); [|apply QR, HQ].
    apply Rupd; [apply Qy, Qm, HQ|exact Hm|exact Htarget].
  - cbn [handle]. rewrite _change_year_eq by exact Hm.
    destruct (in_YEAR_RANGE _); eexists; (split; [reflexivity|]); [|apply QR, HQ].
    apply Rupd; [apply Qy, HQ|exact Hm|exact Hm].
  - cbn [handle]. rewrite _change_year_eq by exact Hm.
    destruct (in_YEAR_RANGE _); eexists; (split; [reflexivity|]); [|apply QR, HQ].
    apply Rupd; [apply Qy, HQ|exact Hm|exact Hm].
  - cbn [handle]. apply Hsave; assumption.
  - destruct (calendar_frame st !! (row, column)) as [color|] eqn:Hcell.
    + rewrite (Button_1_run pf io st row column color Hcell).
      apply Hsave; [apply Qt; assumption|exact Hm].
    + rewrite (Button_1_outside pf io st row column Hcell).
      eexists. split; [reflexivity|apply QR, HQ].
  - cbn [handle]. eexists. split; [reflexivity|]. apply QR, Qe, HQ.
  - cbn [handle]. rewrite (bind_ok _ _ st st st) by reflexivity.
    destruct (bool_decide (is_Some (habit_entries st !! row))); cbn [when].
    + unfold _on_habit_update.
      destruct (Hsave st HQ Hm) as (s' & Hrun & HR).
      rewrite (bind_ok _ _ _ _ _ Hrun), _display_all_habits_spec.
      eexists. split; [reflexivity|apply Rs, HR].
    + eexists. split; [reflexivity|apply QR, HQ].
  - cbn [handle]. eexists. split; [reflexivity|]. apply QR, Qy, HQ.
  - cbn [handle]. eexists. split; [reflexivity|]. apply QR, Qm, HQ.
  - cbn [handle]. eexists. split; [reflexivity|apply QR, HQ].
  - cbn [handle]. rewrite _display_all_habits_spec. eexists. split; [reflexivity|apply Rs, QR, HQ].
  - cbn [handle]. unfold _on_close, root_destroy, try_except, bind.
    destruct (Hsave st HQ Hm) as (s' & -> & HR). eexists. split; [reflexivity|].
    apply Rd, HR.
Qed.

End Equations.

(** ** The data directory along a session *)

Section Disk.

Variable pf : Platform.
Variable io : IOEnv.

Lemma saved_other_file st filename :
  filename <> _get_filename (current_year st) (current_month st) ->
  data_dir (saved io st) !! filename = data_dir st !! filename.
Proof.
  intros Hne. unfold saved.
  case_ifs; cbn [data_dir set_status_text set_data_dir];
    rewrite ?lookup_insert_ne by congruence; reflexivity.
Qed.

Lemma saved_keeps_file st filename :
  is_Some (data_dir st !! filename) -> is_Some (data_dir (saved io st) !! filename).
Proof.
  intros Hsome. unfold saved.
  case_ifs; cbn [data_dir set_status_text set_data_dir]; try exact Hsome;
    (destruct (decide (filename = _get_filename (current_year st) (current_month st)))
       as [->|Hne];
     [rewrite lookup_insert_eq; eauto|rewrite lookup_insert_ne by congruence; exact Hsome]).
Qed.

Lemma updated_data_dir year month is_initial_load st :
  data_dir (updated pf io year month is_initial_load st)
  = data_dir (if initialized st && negb is_initial_load then saved io st else st).
Proof. reflexivity. Qed.

(** X4.  A handler writes to no file but the one of the month that is
    shown when the event arrives: every other file of the data directory
    is afterwards as it was, also after a navigation. *)
Theorem only_shown_slot_written e st filename :
  month_ok st ->
  filename <> _get_filename (current_year st) (current_month st) ->
  data_dir (handle pf io e st).1 !! filename = data_dir st !! filename.
Proof.
  intros Hm Hne.
  destruct (handle_cases pf io
              (fun s => current_year s = current_year st
                        /\ current_month s = current_month st
                        /\ data_dir s = data_dir st)
              (fun s => data_dir s !! filename = data_dir st !! filename))
    with (e := e) (st := st) as (st' & -> & HR); auto.
  - intros s (_ & _ & ->). reflexivity.
  - intros s (Hy & Hmo & Hd) _ _. rewrite saved_other_file, Hd by (rewrite Hy, Hmo; exact Hne).
    reflexivity.
  - intros s y m (Hy & Hmo & Hd) _ _. rewrite updated_data_dir.
    destruct (initialized s && negb false); [|rewrite Hd; reflexivity].
    rewrite saved_other_file, Hd by (rewrite Hy, Hmo; exact Hne). reflexivity.
Qed.

Lemma handle_keeps_file e st filename :
  month_ok st ->
  is_Some (data_dir st !! filename) ->
  is_Some (data_dir (handle pf io e st).1 !! filename).
Proof.
  intros Hm Hsome.
  destruct (handle_cases pf io
              (fun s => data_dir s = data_dir st)
              (fun s => is_Some (data_dir s !! filename)))
    with (e := e) (st := st) as (st' & -> & HR); auto.
  - intros s ->. exact Hsome.
  - intros s Hd _ _. apply saved_keeps_file. rewrite Hd. exact Hsome.
  - intros s y m Hd _ _. rewrite updated_data_dir.
    destruct (initialized s && negb false); [apply saved_keeps_file|]; rewrite Hd; exact Hsome.
Qed.

(** X5.  No event of a session deletes a file: a file that is in the data
    directory stays there through any sequence of events (its content
    may be overwritten while its month is shown). *)
Theorem files_never_deleted es st filename :
  month_ok st ->
  is_Some (data_dir st !! filename) ->
  is_Some (data_dir (run_events pf io es st) !! filename).
Proof.
  revert st. induction es as [|e es IH]; intros st Hm Hsome; cbn [run_events].
  - exact Hsome.
  - destruct (closes e); [apply handle_keeps_file; assumption|].
    apply IH.
    + apply (handle_keeps pf io e st Hm).
    + apply handle_keeps_file; assumption.
Qed.

End Disk.

Lemma only_shown_slot_written_witness :
  data_dir (handle Demo.pf Demo.io_ok Key_Right
              (set_data_dir Demo.old_disk (run_events Demo.pf Demo.io_ok [Key_Right]
                                             Demo.may_2025))).1
    !! _get_filename 2025 5
  = Some (Pickle Demo.old_snapshot).
Proof.
  rewrite (only_shown_slot_written Demo.pf Demo.io_ok).
  - vm_compute. reflexivity.
  - unfold month_ok. vm_compute. split; discriminate.
  - vm_compute. discriminate.
Defined.

Lemma files_never_deleted_witness :
  is_Some (data_dir (run_events Demo.pf Demo.io_disk_full [Key_Down; Button_1 2 1; Key_Up]
                       (set_data_dir Demo.old_disk Demo.may_2025))
             !! _get_filename 2025 5).
Proof.
  apply (files_never_deleted Demo.pf Demo.io_disk_full).
  - unfold month_ok. vm_compute. split; discriminate.
  - vm_compute. eauto.
Defined.


(** ** The two colours along a session *)

Section Colors.

Variable pf : Platform.
Variable io : IOEnv.

Lemma handle_colors e st :
  month_ok st -> frame_ok st -> disk_ok (data_dir st) ->
  frame_ok (handle pf io e st).1 /\ disk_ok (data_dir (handle pf io e st).1).
Proof.
  intros Hm Hframe Hdisk.
  destruct (handle_cases pf io
              (fun s => frame_ok s /\ disk_ok (data_dir s))
              (fun s => frame_ok s /\ disk_ok (data_dir s)))
    with (e := e) (st := st) as (st' & -> & HR); auto.
  - intros s widget color [Hf Hd] Hcell. split; [|exact Hd].
    intros w c. cbn [calendar_frame set_calendar_frame].
    destruct (decide (widget = w)) as [->|Hne].
    + rewrite lookup_insert_eq. intros [= <-]. apply two_colored_toggled.
    + rewrite lookup_insert_ne by exact Hne. apply Hf.
  - intros s [Hf Hd]. split; [|exact Hd].
    intros w c Hcell. cbn in Hcell. rewrite lookup_empty in Hcell. discriminate.
  - intros s [Hf Hd] _ _. split; [|apply saved_disk_ok; assumption].
    intros w c Hcell. apply (Hf w c). rewrite <- Hcell. unfold saved. case_ifs; reflexivity.
  - intros s y m [Hf Hd] _ _. apply updated_colors; assumption.
Qed.

Lemma run_events_colors es st :
  month_ok st -> frame_ok st -> disk_ok (data_dir st) ->
  frame_ok (run_events pf io es st) /\ disk_ok (data_dir (run_events pf io es st)).
Proof.
  revert st. induction es as [|e es IH]; intros st Hm Hframe Hdisk; cbn [run_events].
  - auto.
  - destruct (handle_colors e st Hm Hframe Hdisk) as [Hf Hd].
    destruct (closes e); [split; assumption|].
    apply IH; [apply (handle_keeps pf io e st Hm)|exact Hf|exact Hd].
Qed.

(** X3.  In a state whose month is in 1..12 and whose day labels and
    stored snapshots have the two colours of the application, no handler
    raises: whatever the event, the selection and the file system faults,
    the handler returns, and the state it leaves again has a month in
    1..12 and the two colours, so that the handler of the next event
    does not raise either.  Files that do not unpickle are included; a
    file that unpickles to something the application did not write is
    not. *)
Theorem handlers_never_raise e st :
  month_ok st -> frame_ok st -> disk_ok (data_dir st) ->
  exists st',
    handle pf io e st = (st', Ok tt)
    /\ month_ok st'
    /\ frame_ok st'
    /\ disk_ok (data_dir st').
Proof.
  intros Hm Hframe Hdisk.
  destruct (handle_cases pf io (fun _ => True) (fun _ => True)) with (e := e) (st := st)
    as (st' & Hrun & _); auto.
  exists st'. split; [exact Hrun|].
  pose proof (handle_keeps pf io e st Hm) as (Hm' & _).
  pose proof (handle_colors e st Hm Hframe Hdisk) as [Hf Hd].
  rewrite Hrun in Hm', Hf, Hd. auto.
Qed.

(** X6.  Started on a data directory whose snapshots give every day one
    of the two colours of the application (as every snapshot that the
    application writes does), a session only ever shows day labels that
    are white or light green, so that the test a click makes on a label
    (not the default colour) and the state it logs (the completed colour)
    agree on every label. *)
Theorem session_two_colors now_year now_month fs es widget color :
  1 <= now_month <= 12 -> disk_ok fs ->
  calendar_frame (run_events pf io es (__init__ pf io now_year now_month fs).1) !! widget
  = Some color ->
  two_colored color /\ logged_state color = flag color.
Proof.
  intros Hmonth Hdisk Hcell.
  destruct (init_colors pf io now_year now_month fs Hmonth Hdisk) as [Hf0 Hd0].
  destruct (session_keeps pf io now_year now_month fs [] Hmonth) as (Hm0 & _).
  cbn [run_events] in Hm0.
  destruct (run_events_colors es _ Hm0 Hf0 Hd0) as [Hf _].
  pose proof (Hf widget color Hcell) as Hcolor.
  split; [exact Hcolor|apply two_colored_states, Hcolor].
Qed.

End Colors.

Lemma handlers_never_raise_witness :
  exists st',
    handle Demo.pf Demo.io_read_only Key_Left Demo.june_2025 = (st', Ok tt)
    /\ month_ok st'.
Proof.
  destruct (handlers_never_raise Demo.pf Demo.io_read_only Key_Left Demo.june_2025)
    as (st' & Hrun & Hm & _).
  - unfold month_ok. vm_compute. split; discriminate.
  - apply june_2025_colors.
  - apply june_2025_colors.
  - exists st'. split; [exact Hrun|exact Hm].
Defined.

Lemma session_two_colors_witness :
  two_colored COLOR_COMPLETED /\ logged_state COLOR_COMPLETED = flag COLOR_COMPLETED.
Proof.
  apply (session_two_colors Demo.pf Demo.io_ok 2025 5 ∅ [Button_1 2 1; Key_Right; Key_Left]
           (2, 1) COLOR_COMPLETED).
  - lia.
  - intros filename data i j Hfile. rewrite lookup_empty in Hfile. discriminate.
  - vm_compute. reflexivity.
Defined.

(** ** Moving away from a month and back *)

Section AwayAndBack.

Variable pf : Platform.

Lemma saved_slot io st :
  open_wb_fails io (_get_filename (current_year st) (current_month st)) = false ->
  dump_fails io (_get_filename (current_year st) (current_month st)) = false ->
  data_dir (saved io st) !! _get_filename (current_year st) (current_month st)
  = Some (Pickle (snapshot st)).
Proof.
  intros Hopen Hdump. unfold saved. rewrite Hopen, Hdump.
  cbn [data_dir set_status_text set_data_dir]. apply lookup_insert_eq.
Qed.

Lemma updated_habit_name io year month is_initial_load st i :
  0 <= i < MAX_HABIT_ROWS ->
  habit_name (updated pf io year month is_initial_load st) (START_ROW_INDEX + i)
  = snapshot_name
      (loaded io (data_dir (if initialized st && negb is_initial_load
                            then saved io st else st)) year month) i.
Proof.
  intros Hi. unfold habit_name, updated. cbn [habit_entries].
  rewrite rendered_entries_lookup by exact Hi. reflexivity.
Qed.

Lemma updated_cell_color io year month is_initial_load st i j :
  0 <= i < MAX_HABIT_ROWS -> 1 <= j <= ndays year month ->
  cell_color (updated pf io year month is_initial_load st) (START_ROW_INDEX + i) j
  = snapshot_color
      (loaded io (data_dir (if initialized st && negb is_initial_load
                            then saved io st else st)) year month) i j.
Proof.
  intros Hi Hj. unfold cell_color, updated. cbn [calendar_frame].
  rewrite rendered_frame_lookup by assumption. reflexivity.
Qed.

(** Rendering the slot of the month of [st] shows the grid of [st] when
    that slot holds the snapshot of [st]. *)
Lemma updated_shows_snapshot io is_initial_load st s :
  month_ok st ->
  loaded io (data_dir (if initialized s && negb is_initial_load then saved io s else s))
    (current_year st) (current_month st) = snapshot st ->
  shows_same_grid st
    (updated pf io (current_year st) (current_month st) is_initial_load s).
Proof.
  intros Hm Hloaded.
  assert (Hname : forall i, 0 <= i < MAX_HABIT_ROWS ->
    habit_name (updated pf io (current_year st) (current_month st) is_initial_load s)
      (START_ROW_INDEX + i) = habit_name st (START_ROW_INDEX + i)).
  { intros i Hi. rewrite updated_habit_name, Hloaded by exact Hi.
    apply snapshot_name_snapshot, Hi. }
  assert (Hcolor : forall i j, 0 <= i < MAX_HABIT_ROWS ->
    1 <= j <= ndays (current_year st) (current_month st) ->
    cell_color (updated pf io (current_year st) (current_month st) is_initial_load s)
      (START_ROW_INDEX + i) j = cell_color st (START_ROW_INDEX + i) j).
  { intros i j Hi Hj. rewrite updated_cell_color, Hloaded by assumption.
    apply snapshot_color_snapshot; assumption. }
  split; [reflexivity|]. split; [reflexivity|]. split.
  - apply month_grid_ext; [reflexivity|reflexivity|exact Hname|exact Hcolor].
  - intros i Hi. split; [apply Hname, Hi|]. intros j Hj. apply Hcolor; assumption.
Qed.

(** A navigation to another month and one back to the month of [st],
    whatever the selectors are set to on the way. *)
Lemma away_and_back io1 io2 st year' month' x1 x2 x3 x4 :
  initialized st = true -> month_ok st ->
  (year', month') <> (current_year st, current_month st) ->
  open_wb_fails io1 (_get_filename (current_year st) (current_month st)) = false ->
  dump_fails io1 (_get_filename (current_year st) (current_month st)) = false ->
  open_rb_fails io2 (_get_filename (current_year st) (current_month st)) = false ->
  shows_same_grid st
    (updated pf io2 (current_year st) (current_month st) false
       (set_year_var x3
          (set_month_var x4
             (updated pf io1 year' month' false
                (set_year_var x1 (set_month_var x2 st)))))).
Proof.
  intros Hinit Hm Hne Hopen Hdump Hread.
  apply updated_shows_snapshot; [exact Hm|].
  set (st1 := updated pf io1 year' month' false (set_year_var x1 (set_month_var x2 st))).
  assert (Hinit1 : initialized (set_year_var x3 (set_month_var x4 st1)) = true)
    by exact Hinit.
  rewrite Hinit1. cbn [andb negb].
  assert (Hother : _get_filename (current_year st) (current_month st)
                   <> _get_filename year' month').
  { intros Heq. apply _get_filename_inj in Heq as [Hy Hmo]. apply Hne. congruence. }
  unfold loaded.
  rewrite saved_other_file by exact Hother.
  change (data_dir (set_year_var x3 (set_month_var x4 st1))) with (data_dir st1).
  subst st1. rewrite updated_data_dir.
  change (initialized (set_year_var x1 (set_month_var x2 st))) with (initialized st).
  rewrite Hinit. cbn [andb negb].
  assert (Hslot :
    data_dir (saved io1 (set_year_var x1 (set_month_var x2 st)))
      !! _get_filename (current_year st) (current_month st)
    = Some (Pickle (snapshot st)))
    by exact (saved_slot io1 (set_year_var x1 (set_month_var x2 st)) Hopen Hdump).
  rewrite Hslot, Hread. reflexivity.
Qed.

End AwayAndBack.

(** ** The arrow keys *)

Lemma month_target_next year month :
  1 <= month <= 12 ->
  month_target 1 year month = ((next_month year month).2, (next_month year month).1).
Proof.
  intros Hm. unfold month_target, next_month.
  destruct (Z.ltb_spec (month + 1) 1); [lia|].
  destruct (Z.eqb_spec month 12) as [->|Hne]; [reflexivity|].
  destruct (Z.ltb_spec 12 (month + 1)); [lia|reflexivity].
Qed.


(** One month forth and one month back, or back and forth, is where one was. *)
Lemma month_target_back delta year month :
  delta = 1 \/ delta = -1 -> 1 <= month <= 12 ->
  month_target (- delta) (month_target delta year month).2
    (month_target delta year month).1 = (month, year)
  /\ ((month_target delta year month).2, (month_target delta year month).1)
     <> (year, month)
  /\ 1 <= (month_target delta year month).1 <= 12.
Proof.
  intros [-> | ->] Hm; unfold month_target.
  - destruct (Z.ltb_spec (month + 1) 1); [lia|].
    destruct (Z.ltb_spec 12 (month + 1)); cbn [fst snd].
    + assert (month = 12) as -> by lia. repeat split; try lia; [|intros [=]; lia].
      cbn. f_equal. lia.
    + destruct (Z.ltb_spec (month + 1 + - (1)) 1); [lia|].
      destruct (Z.ltb_spec 12 (month + 1 + - (1))); [lia|].
      repeat split; try lia; [f_equal; lia|intros [=]; lia].
  - destruct (Z.ltb_spec (month + -1) 1); cbn [fst snd].
    + assert (month = 1) as -> by lia. repeat split; try lia; [|intros [=]; lia].
      cbn. f_equal. lia.
    + destruct (Z.ltb_spec 12 (month + -1)); [lia|]. cbn [fst snd].
      destruct (Z.ltb_spec (month + -1 + - -1) 1); [lia|].
      destruct (Z.ltb_spec 12 (month + -1 + - -1)); [lia|].
      repeat split; try lia; [f_equal; lia|intros [=]; lia].
Qed.

Section Arrows.

Variable pf : Platform.

Lemma _change_month_run io delta st :
  month_ok st ->
  in_YEAR_RANGE (month_target delta (current_year st) (current_month st)).2 = true ->
  _change_month pf io delta st
  = (updated pf io (month_target delta (current_year st) (current_month st)).2
       (month_target delta (current_year st) (current_month st)).1 false
       (set_year_var (str (month_target delta (current_year st) (current_month st)).2)
          (set_month_var
             (str (month_target delta (current_year st) (current_month st)).1) st)),
     Ok tt).
Proof.
  intros Hm Hrange. rewrite _change_month_eq by exact Hm. cbv zeta.
  change (if current_month st + delta <? 1 then (12, current_year st - 1)
          else if 12 <? current_month st + delta then (1, current_year st + 1)
          else (current_month st + delta, current_year st))
    with (month_target delta (current_year st) (current_month st)).
  rewrite Hrange. reflexivity.
Qed.

Lemma change_month_round_trip io1 io2 delta st :
  delta = 1 \/ delta = -1 ->
  initialized st = true -> date_ok st ->
  in_YEAR_RANGE (month_target delta (current_year st) (current_month st)).2 = true ->
  open_wb_fails io1 (_get_filename (current_year st) (current_month st)) = false ->
  dump_fails io1 (_get_filename (current_year st) (current_month st)) = false ->
  open_rb_fails io2 (_get_filename (current_year st) (current_month st)) = false ->
  shows_same_grid st
    (_change_month pf io2 (- delta) (_change_month pf io1 delta st).1).1.
Proof.
  intros Hdelta Hinit [Hy Hm] Hrange Hopen Hdump Hread.
  destruct (month_target_back delta (current_year st) (current_month st) Hdelta Hm)
    as (Hback & Hne & Htarget).
  rewrite (_change_month_run io1 delta st Hm Hrange). cbn [fst].
  set (t := month_target delta (current_year st) (current_month st)) in *.
  set (st1 := updated pf io1 t.2 t.1 false
                (set_year_var (str t.2) (set_month_var (str t.1) st))).
  assert (Hm1 : month_ok st1) by exact Htarget.
  assert (Hback1 : month_target (- delta) (current_year st1) (current_month st1)
                   = (current_month st, current_year st)) by exact Hback.
  rewrite (_change_month_run io2 (- delta) st1 Hm1)
    by (rewrite Hback1; apply in_YEAR_RANGE_spec, Hy).
  rewrite Hback1. cbn [fst snd].
  apply away_and_back; assumption.
Qed.


End Arrows.


Section YearArrows.

Variable pf : Platform.



End YearArrows.


(** ** Edits and navigation *)

Lemma saved_widgets io st :
  current_year (saved io st) = current_year st
  /\ current_month (saved io st) = current_month st
  /\ initialized (saved io st) = initialized st
  /\ habit_entries (saved io st) = habit_entries st
  /\ calendar_frame (saved io st) = calendar_frame st.
Proof. unfold saved. case_ifs; repeat split. Qed.

Section Edits.

Variable pf : Platform.

(** X9.  A name typed into the entry of a row and a click on a day label
    are kept by a navigation to the next month and back, also when the
    entry never lost the focus and the save that the click triggers
    failed: the navigation saves the grid it leaves.  The open and the
    write of the slot on leaving and its read on returning must succeed. *)
Theorem edits_survive_navigation io0 io1 io2 st i i' j entry color text :
  initialized st = true -> date_ok st ->
  0 <= i < MAX_HABIT_ROWS -> 0 <= i' < MAX_HABIT_ROWS ->
  1 <= j <= ndays (current_year st) (current_month st) ->
  habit_entries st !! (START_ROW_INDEX + i) = Some entry ->
  calendar_frame st !! (START_ROW_INDEX + i', j) = Some color ->
  in_YEAR_RANGE (next_month (current_year st) (current_month st)).1 = true ->
  open_wb_fails io1 (_get_filename (current_year st) (current_month st)) = false ->
  dump_fails io1 (_get_filename (current_year st) (current_month st)) = false ->
  open_rb_fails io2 (_get_filename (current_year st) (current_month st)) = false ->
  let st_typed := (handle pf io0 (Typed (START_ROW_INDEX + i) text) st).1 in
  let st_clicked := (handle pf io0 (Button_1 (START_ROW_INDEX + i') j) st_typed).1 in
  let st_away := (handle pf io1 Key_Right st_clicked).1 in
  let st_back := (handle pf io2 Key_Left st_away).1 in
  current_year st_back = current_year st
  /\ current_month st_back = current_month st
  /\ habit_name st_back (START_ROW_INDEX + i) = text
  /\ cell_color st_back (START_ROW_INDEX + i') j = toggled color
  /\ flag (cell_color st_back (START_ROW_INDEX + i') j) = negb (flag color).
Proof.
  intros Hinit [Hy Hm] Hi Hi' Hj Hentry Hcell Hrange Hopen Hdump Hread.
  intros st_typed st_clicked st_away st_back.
  set (st1 := set_calendar_frame
                (<[(START_ROW_INDEX + i', j) := toggled color]> (calendar_frame st_typed))
                st_typed).
  assert (Hclicked : st_clicked = saved io0 st1).
  { subst st_clicked.
    rewrite (Button_1_run pf io0 st_typed (START_ROW_INDEX + i') j color) by exact Hcell.
    rewrite _save_current_data_spec; [reflexivity|exact Hinit|exact Hm]. }
  clearbody st_clicked. subst st_clicked.
  destruct (saved_widgets io0 st1) as (Hy1 & Hm1 & Hi1 & He1 & Hf1).
  assert (Hgrid : shows_same_grid (saved io0 st1) st_back).
  { subst st_back st_away. cbn [handle].
    apply (change_month_round_trip pf io1 io2 1 (saved io0 st1)).
    - left. reflexivity.
    - rewrite Hi1. exact Hinit.
    - split; [unfold year_ok; rewrite Hy1; exact Hy|unfold month_ok; rewrite Hm1; exact Hm].
    - rewrite Hy1, Hm1. change (current_year st1) with (current_year st).
      change (current_month st1) with (current_month st).
      rewrite month_target_next by exact Hm. exact Hrange.
    - rewrite Hy1, Hm1. exact Hopen.
    - rewrite Hy1, Hm1. exact Hdump.
    - rewrite Hy1, Hm1. exact Hread. }
  destruct Hgrid as (Hyb & Hmb & _ & Hrows).
  rewrite Hy1 in Hyb. rewrite Hm1 in Hmb. rewrite Hy1, Hm1 in Hrows.
  split; [exact Hyb|]. split; [exact Hmb|].
  assert (Hname : habit_name st_back (START_ROW_INDEX + i) = text).
  { rewrite (proj1 (Hrows i Hi)). unfold habit_name. rewrite He1.
    change (habit_entries st1)
      with (alter (fun e => mkEntry text (entry_bg e)) (START_ROW_INDEX + i)
              (habit_entries st)).
    rewrite lookup_alter_eq, Hentry. reflexivity. }
  assert (Hcolor : cell_color st_back (START_ROW_INDEX + i') j = toggled color).
  { rewrite (proj2 (Hrows i' Hi') j) by exact Hj. unfold cell_color. rewrite Hf1.
    change (calendar_frame st1)
      with (<[(START_ROW_INDEX + i', j) := toggled color]> (calendar_frame st)).
    rewrite lookup_insert_eq. reflexivity. }
  split; [exact Hname|]. split; [exact Hcolor|].
  rewrite Hcolor. apply flag_toggled.
Qed.

End Edits.

Lemma edits_survive_navigation_witness :
  habit_name
    (handle Demo.pf Demo.io_ok Key_Left
       (handle Demo.pf Demo.io_ok Key_Right
          (handle Demo.pf Demo.io_read_only (Button_1 3 7)
             (handle Demo.pf Demo.io_read_only (Typed 2 "Read") Demo.may_2025).1).1).1).1
    2 = "Read".
Proof.
  refine (proj1 (proj2 (proj2
           (edits_survive_navigation Demo.pf Demo.io_read_only Demo.io_ok Demo.io_ok
              Demo.may_2025 0 1 7 (mkEntry "" "white") COLOR_DEFAULT "Read"
              _ _ _ _ _ _ _ _ _ _ _))));
    vm_compute; repeat split; first [discriminate | reflexivity].
Defined.

(** ** The selectors and the update handler *)

Section Selection.

Variable pf : Platform.
Variable io : IOEnv.

(** X10.  Startup and the four arrow keys leave the year and month
    selectors showing the date that is shown: startup and a month arrow
    set both, a year arrow sets the year selector and keeps the month,
    and a rejected arrow changes nothing. *)
Theorem arrows_keep_selectors st :
  month_ok st -> selectors_synced st ->
  selectors_synced (handle pf io Key_Left st).1
  /\ selectors_synced (handle pf io Key_Right st).1
  /\ selectors_synced (handle pf io Key_Up st).1
  /\ selectors_synced (handle pf io Key_Down st).1
  /\ forall now_year now_month fs,
       1 <= now_month <= 12 ->
       selectors_synced (__init__ pf io now_year now_month fs).1.
Proof.
  intros Hm [Hyv Hmv]. cbn [handle].
  rewrite !_change_month_eq, !_change_year_eq by exact Hm. cbv zeta.
  repeat split;
    try (case_ifs; cbn [fst]; first [reflexivity | assumption]).
  - unfold __init__.
    erewrite bind_ok by (apply _update_calendar_spec; [assumption|discriminate]).
    erewrite bind_ok by reflexivity.
    rewrite _display_all_habits_spec. reflexivity.
  - unfold __init__.
    erewrite bind_ok by (apply _update_calendar_spec; [assumption|discriminate]).
    erewrite bind_ok by reflexivity.
    rewrite _display_all_habits_spec. reflexivity.
Qed.

(** X11.  [_on_update_button_click] is bound to no widget (the command
    of the update button is commented out), so it runs by a direct call
    only.  Called in a state whose day labels and stored snapshots have
    the two colours, with a numeric selection of a year in 2020..2025 and
    a month in 1..12, it navigates: it returns, shows the selected year
    and month, and the widgets of the ten rows hold what the slot of the
    selection answers after the save of the grid that was shown; the
    labels and the snapshots have the two colours again. *)
Theorem valid_selection_navigates st y m :
  month_ok st -> frame_ok st -> disk_ok (data_dir st) ->
  int pf (year_var st) = Some y -> int pf (month_var st) = Some m ->
  2020 <= y <= 2025 -> 1 <= m <= 12 ->
  exists st' data,
    frame_ok st' /\ disk_ok (data_dir st') /\
    _on_update_button_click pf io st = (st', Ok tt)
    /\ current_year st' = y
    /\ current_month st' = m
    /\ load_data io y m (data_dir (_save_current_data io st).1)
       = (data_dir (_save_current_data io st).1, Ok data)
    /\ data_dir st' = data_dir (_save_current_data io st).1
    /\ forall i, 0 <= i < MAX_HABIT_ROWS ->
         habit_name st' (START_ROW_INDEX + i) = snapshot_name data i
         /\ forall j, 1 <= j <= ndays y m ->
              cell_color st' (START_ROW_INDEX + i) j = snapshot_color data i j.
Proof.
  intros Hm Hframe Hdisk Hyv Hmv Hy Hmonth.
  rewrite _on_update_button_click_eq, Hyv, Hmv by exact Hm.
  rewrite (proj2 (in_YEAR_RANGE_spec y) Hy).
  destruct (Z.leb_spec 1 m); [|lia]. destruct (Z.leb_spec m 12); [|lia]. cbn [negb orb andb].
  rewrite _save_current_data_eq by exact Hm. cbn [fst].
  exists (updated pf io y m false st).
  exists (loaded io (data_dir (if initialized st then saved io st else st)) y m).
  split; [apply updated_colors; assumption|].
  split; [apply updated_colors; assumption|].
  split; [reflexivity|]. split; [reflexivity|]. split; [reflexivity|].
  split; [apply load_data_loaded|].
  split; [rewrite updated_data_dir, andb_true_r; reflexivity|].
  intros i Hi. split.
  - rewrite updated_habit_name, andb_true_r by exact Hi. reflexivity.
  - intros j Hj. rewrite updated_cell_color, andb_true_r by assumption. reflexivity.
Qed.

End Selection.

Lemma arrows_keep_selectors_witness :
  selectors_synced (handle Demo.pf Demo.io_ok Key_Right Demo.may_2025).1.
Proof.
  destruct (arrows_keep_selectors Demo.pf Demo.io_ok Demo.may_2025) as (_ & Hright & _).
  - unfold month_ok. vm_compute. split; discriminate.
  - split; vm_compute; reflexivity.
  - exact Hright.
Defined.

Lemma valid_selection_navigates_witness :
  exists st',
    _on_update_button_click Demo.pf Demo.io_ok
      (set_year_var "2024" (set_month_var "2" Demo.may_2025)) = (st', Ok tt)
    /\ current_year st' = 2024 /\ current_month st' = 2.
Proof.
  destruct (valid_selection_navigates Demo.pf Demo.io_ok
              (set_year_var "2024" (set_month_var "2" Demo.may_2025)) 2024 2)
    as (st' & data & _ & _ & Hrun & Hy & Hm & _).
  - unfold month_ok. vm_compute. split; discriminate.
  - apply selection_colors, may_2025_colors.
  - apply selection_colors, may_2025_colors.
  - vm_compute. reflexivity.
  - vm_compute. reflexivity.
  - lia.
  - lia.
  - exists st'. auto.
Defined.

(** ** The status bar *)

Lemma truthy_list_false {A} (l : list A) : truthy_list l = false <-> l = [].
Proof. destruct l; split; (reflexivity || discriminate). Qed.

Lemma truthy_str_false (s : string) : truthy_str s = false <-> s = "".
Proof. destruct s; split; (reflexivity || discriminate). Qed.

Lemma omap_nil_iff {A B} (f : A -> option B) (l : list A) :
  omap f l = [] <-> forall x, x ∈ l -> f x = None.
Proof.
  induction l as [|a l IH]; cbn [omap list_omap].
  - split; [intros _ x Hx; inversion Hx|reflexivity].
  - destruct (f a) as [b|] eqn:Hfa.
    + split; [discriminate|]. intros Hall. rewrite (Hall a) in Hfa by left. discriminate.
    + rewrite IH. split.
      * intros Hall x Hx. apply elem_of_cons in Hx as [->|Hx]; auto.
      * intros Hall x Hx. apply Hall. right. exact Hx.
Qed.

Lemma elem_of_sorted_items (d : gmap Z Entry) (item : Z * Entry) :
  item ∈ sorted_items d <-> d !! item.1 = Some item.2.
Proof.
  unfold sorted_items. rewrite merge_sort_Permutation.
  destruct item as [row entry]. apply elem_of_map_to_list.
Qed.

Lemma STATUS_HABITS_LIST_not_error habits :
  STATUS_HABITS_LIST habits <> STATUS_NO_HABITS
  /\ STATUS_HABITS_LIST habits <> STATUS_SAVE_ERROR.
Proof. unfold STATUS_HABITS_LIST. split; cbn; discriminate. Qed.

Section Status.

Variable pf : Platform.

Lemma all_habits_text_not_error entries :
  all_habits_text pf entries <> STATUS_SAVE_ERROR.
Proof.
  unfold all_habits_text.
  destruct (truthy_list _); [apply STATUS_HABITS_LIST_not_error|discriminate].
Qed.

(** X12.  The status bar shows the no-habits text after
    [_display_all_habits] exactly when every entry holds a name that is
    empty or white space only: blank names are left out of the summary,
    and one name that is not blank is enough for the summary to be shown. *)
Theorem summary_omits_blank_names st :
  status_text (_display_all_habits pf st).1 = STATUS_NO_HABITS
  <-> forall row entry, habit_entries st !! row = Some entry -> blank pf entry.
Proof.
  rewrite _display_all_habits_spec. cbn [fst status_text set_status_text].
  unfold all_habits_text, blank.
  match goal with |- context [truthy_list ?l] => destruct (truthy_list l) eqn:Htexts end.
  - split.
    + intros Heq. destruct (proj1 (STATUS_HABITS_LIST_not_error _) Heq).
    + intros Hall. exfalso.
      assert (Hnil : forall l : list string, l = [] -> truthy_list l = true -> False)
        by (intros l ->; discriminate).
      refine (Hnil _ _ Htexts). apply omap_nil_iff. intros [row entry] Hin.
      apply elem_of_sorted_items in Hin. cbn [fst snd] in *.
      rewrite (Hall row entry Hin). reflexivity.
  - split; [|reflexivity]. intros _ row entry Hentry.
    apply truthy_list_false in Htexts.
    pose proof (proj1 (omap_nil_iff _ _) Htexts (row, entry)) as Hnone.
    cbn [fst snd] in Hnone.
    apply truthy_str_false.
    destruct (truthy_str (strip pf (entry_get entry))); [|reflexivity].
    discriminate Hnone. apply elem_of_sorted_items. exact Hentry.
Qed.

(** X13.  After a rename (the entry of a row loses the focus) and, in a
    state whose day labels and stored snapshots have the two colours,
    after a navigation, the status bar shows the habit summary, never the
    save-error text: when the save of the grid fails in these handlers,
    the error text is overwritten before the handler returns.  The grid
    that the navigation builds has the two colours again. *)
Theorem save_error_overwritten io st row entry year month :
  month_ok st -> habit_entries st !! row = Some entry -> 1 <= month <= 12 ->
  frame_ok st -> disk_ok (data_dir st) ->
  (exists st',
     handle pf io (FocusOut row) st = (st', Ok tt)
     /\ status_text st' = all_habits_text pf (habit_entries st)
     /\ status_text st' <> STATUS_SAVE_ERROR)
  /\ (exists st',
        _update_calendar pf io year month false st = (st', Ok tt)
        /\ status_text st' = all_habits_text pf (habit_entries st')
        /\ status_text st' <> STATUS_SAVE_ERROR
        /\ frame_ok st'
        /\ disk_ok (data_dir st')).
Proof.
  intros Hm Hentry Hmonth Hframe Hdisk. split.
  - cbn [handle]. rewrite (bind_ok _ _ st st st) by reflexivity.
    rewrite bool_decide_eq_true_2 by eauto. cbn [when]. unfold _on_habit_update.
    erewrite bind_ok by (apply _save_current_data_eq, Hm).
    rewrite _display_all_habits_spec. eexists. split; [reflexivity|].
    cbn [status_text set_status_text].
    assert (He : habit_entries (if initialized st then saved io st else st)
                 = habit_entries st)
      by (destruct (initialized st); [apply saved_widgets|reflexivity]).
    rewrite He. split; [reflexivity|apply all_habits_text_not_error].
  - rewrite _update_calendar_spec by auto. eexists. split; [reflexivity|].
    split; [reflexivity|]. split; [apply all_habits_text_not_error|].
    apply updated_colors; assumption.
Qed.

End Status.

Lemma save_error_overwritten_witness :
  (exists st',
     handle Demo.pf Demo.io_read_only (FocusOut 2) Demo.may_2025 = (st', Ok tt)
     /\ status_text st' <> STATUS_SAVE_ERROR)
  /\ (exists st',
        _update_calendar Demo.pf Demo.io_read_only 2025 6 false Demo.may_2025 = (st', Ok tt)
        /\ status_text st' <> STATUS_SAVE_ERROR).
Proof.
  destruct (save_error_overwritten Demo.pf Demo.io_read_only Demo.may_2025 2
              (mkEntry "" "white") 2025 6)
    as [(st1 & Hrun1 & _ & Hstatus1) (st2 & Hrun2 & _ & Hstatus2 & _)].
  - unfold month_ok. vm_compute. split; discriminate.
  - vm_compute. reflexivity.
  - lia.
  - apply may_2025_colors.
  - apply may_2025_colors.
  - split; [exists st1|exists st2]; auto.
Defined.

(** ** The collected snapshot, closing and startup *)

Lemma row_data_cell st days i j :
  1 <= j <= days ->
  row_data st days i !! Z.to_nat j = Some (cell_dict (cell_color st (START_ROW_INDEX + i) j)).
Proof.
  intros Hj. unfold row_data, cell_color.
  replace (Z.to_nat j) with (S (Z.to_nat (j - 1))) by lia.
  rewrite lookup_cons_S, lookup_map, range_lookup by lia.
  replace (1 + (j - 1)) with j by lia. cbn [fmap option_fmap option_map].
  destruct (calendar_frame st !! (START_ROW_INDEX + i, j)); reflexivity.
Qed.

Lemma row_data_len st days i : 0 <= days -> len (row_data st days i) = days + 1.
Proof.
  intros Hdays. unfold row_data, len. cbn [length].
  rewrite length_map. unfold range. rewrite length_seqZ. lia.
Qed.

(** X14.  With a month in 1..12 [_collect_current_data] changes nothing
    and answers ten rows; each row holds the dictionary of the habit entry,
    with the name under 'text', followed by one dictionary per day of the
    month whose only key 'bg' holds the colour of the day label (the
    default colour where a widget is missing).  With any other month it
    raises [IllegalMonthError]. *)
Theorem collect_shape st :
  (month_ok st ->
   exists data,
     _collect_current_data st = (st, Ok data)
     /\ length data = 10%nat
     /\ Forall (fun row => len row = ndays (current_year st) (current_month st) + 1) data
     /\ forall i, 0 <= i < MAX_HABIT_ROWS ->
          exists row bg,
            data !! Z.to_nat i = Some row
            /\ row !! 0%nat = Some (entry_dict (habit_name st (START_ROW_INDEX + i)) bg)
            /\ forall j, 1 <= j <= ndays (current_year st) (current_month st) ->
                 row !! Z.to_nat j
                 = Some (cell_dict (cell_color st (START_ROW_INDEX + i) j)))
  /\ (~ month_ok st -> _collect_current_data st = (st, Raise IllegalMonthError)).
Proof.
  split; [|apply _collect_current_data_raises].
  intros Hm. exists (snapshot st).
  split; [apply _collect_current_data_spec, Hm|].
  split; [unfold snapshot; rewrite length_map, range_rows; reflexivity|].
  split.
  - unfold snapshot. apply Forall_map_intro. intros i.
    apply row_data_len, ndays_nonneg.
  - intros i Hi.
    exists (row_data st (ndays (current_year st) (current_month st)) i).
    exists (match habit_entries st !! (START_ROW_INDEX + i) with
            | Some entry => entry_bg entry
            | None => COLOR_DEFAULT
            end).
    split; [apply snapshot_lookup, Hi|]. split.
    + unfold row_data, habit_name. cbn [lookup list_lookup].
      destruct (habit_entries st !! (START_ROW_INDEX + i)); reflexivity.
    + intros j Hj. apply row_data_cell, Hj.
Qed.

Lemma collect_shape_witness :
  exists data,
    _collect_current_data Demo.may_2025 = (Demo.may_2025, Ok data)
    /\ length data = 10%nat
    /\ Forall (fun row => len row = 32) data.
Proof.
  destruct (collect_shape Demo.may_2025) as [Hok _].
  destruct Hok as (data & Hrun & Hlen & Hrows & _).
  - unfold month_ok. vm_compute. split; discriminate.
  - exists data. split; [exact Hrun|]. split; [exact Hlen|exact Hrows].
Defined.

Lemma _on_close_eq io st :
  _on_close io st
  = (set_calendar_frame ∅
       (set_habit_entries ∅
          (if initialized st
           then if bool_decide (month_ok st) then saved io st
                else set_messagebox (messagebox st ++ [CLOSE_WARNING]) st
           else st)),
     Ok tt).
Proof.
  unfold _on_close, root_destroy, showwarning, try_except, bind, modify.
  destruct (initialized st) eqn:Hinit.
  - case_bool_decide as Hm.
    + rewrite _save_current_data_eq, Hinit by exact Hm. reflexivity.
    + unfold _save_current_data.
      rewrite (bind_ok _ _ st st st) by reflexivity. rewrite Hinit. cbn [negb].
      rewrite (bind_raise _ _ st st IllegalMonthError)
        by (apply _collect_current_data_raises, Hm).
      reflexivity.
  - rewrite _save_current_data_uninitialized by exact Hinit. reflexivity.
Qed.

(** X15.  Closing the window never raises, in any state and whatever the
    file system answers: what the save raises is caught, and the window
    is destroyed, so that no entry and no day label is left.  The shown
    date is kept and no file other than that of the shown month is
    changed.  The warning dialog is shown exactly when the save raises,
    which it does when the application is initialised and its month is
    not in 1..12 (collecting the grid raises then, and nothing is
    written); a write that fails is reported by the status text only and
    shows no dialog. *)
Theorem close_never_raises io st :
  exists st',
    _on_close io st = (st', Ok tt)
    /\ habit_entries st' = ∅
    /\ calendar_frame st' = ∅
    /\ current_year st' = current_year st
    /\ current_month st' = current_month st
    /\ (forall filename,
          filename <> _get_filename (current_year st) (current_month st) ->
          data_dir st' !! filename = data_dir st !! filename)
    /\ (initialized st = true -> ~ month_ok st ->
        messagebox st' = (messagebox st ++ [CLOSE_WARNING])%list
        /\ data_dir st' = data_dir st)
    /\ (initialized st = false \/ month_ok st -> messagebox st' = messagebox st)
    /\ (initialized st = false -> data_dir st' = data_dir st).
Proof.
  rewrite _on_close_eq. eexists. split; [reflexivity|].
  split; [reflexivity|]. split; [reflexivity|].
  cbn [current_year current_month data_dir messagebox
       set_calendar_frame set_habit_entries].
  destruct (initialized st).
  - case_bool_decide as Hm.
    + destruct (saved_widgets io st) as (Hy & Hmo & _).
      split; [exact Hy|]. split; [exact Hmo|].
      split.
      { intros filename Hne. unfold saved.
        case_ifs; cbn [data_dir set_status_text set_data_dir];
          rewrite ?lookup_insert_ne by congruence; reflexivity. }
      split; [intros _ Hn; destruct (Hn Hm)|].
      split; [|discriminate].
      intros _. unfold saved. case_ifs; reflexivity.
    + repeat split; try reflexivity; try discriminate.
      intros [Hi|Hm']; [discriminate|destruct (Hm Hm')].
  - repeat split; try reflexivity; discriminate.
Qed.

Lemma close_never_raises_witness :
  exists st',
    _on_close Demo.io_ok (set_current 2025 13 Demo.may_2025) = (st', Ok tt)
    /\ habit_entries st' = ∅
    /\ messagebox st' = [CLOSE_WARNING].
Proof.
  destruct (close_never_raises Demo.io_ok (set_current 2025 13 Demo.may_2025))
    as (st' & Hrun & Hentries & _ & _ & _ & _ & Hbox & _).
  exists st'. split; [exact Hrun|]. split; [exact Hentries|].
  refine (eq_trans (proj1 (Hbox _ _)) _).
  - vm_compute. reflexivity.
  - unfold month_ok. vm_compute. intros [_ Hle]. apply Hle. reflexivity.
  - vm_compute. reflexivity.
Defined.

(** X16.  [CalendarApp(root)] builds its data manager first: when the
    data directory cannot be created the constructor raises the
    [OSError] and there is no application.  Otherwise, with a clock month
    in 1..12 and a data directory whose snapshots have the two colours of
    the application, startup never raises and never writes: files that
    cannot be opened or do not unpickle included, the application starts,
    shows the month of the clock with day labels of the two colours,
    shows no dialog and leaves the data directory as it found it. *)
Theorem init_never_writes pf io now_year now_month fs :
  1 <= now_month <= 12 -> disk_ok fs ->
  construct pf io true now_year now_month fs = Raise OSError
  /\ exists st,
       construct pf io false now_year now_month fs = Ok st
       /\ __init__ pf io now_year now_month fs = (st, Ok tt)
       /\ data_dir st = fs
       /\ current_year st = now_year
       /\ current_month st = now_month
       /\ initialized st = true
       /\ status_text st = all_habits_text pf (habit_entries st)
       /\ messagebox st = []
       /\ frame_ok st.
Proof.
  intros Hmonth Hdisk. split; [reflexivity|].
  pose proof (init_colors pf io now_year now_month fs Hmonth Hdisk) as [Hframe _].
  revert Hframe. unfold construct, DataManager.__init__, __init__.
  erewrite bind_ok by (apply _update_calendar_spec; [exact Hmonth|discriminate]).
  erewrite bind_ok by reflexivity.
  rewrite _display_all_habits_spec. intros Hframe.
  eexists. split; [reflexivity|]. split; [reflexivity|].
  repeat split. exact Hframe.
Qed.

Lemma init_never_writes_witness :
  exists st,
    construct Demo.pf Demo.io_read_only false 2025 4 Demo.garbage_disk = Ok st
    /\ data_dir st = Demo.garbage_disk.
Proof.
  destruct (init_never_writes Demo.pf Demo.io_read_only 2025 4 Demo.garbage_disk)
    as (_ & st & Hrun & _ & Hdir & _).
  - lia.
  - apply garbage_disk_ok.
  - exists st. auto.
Defined.


